(** * Vingester main process: frame statistics, rate governing and the
      browser registry

    A shallow embedding of [vingester-main.js]: the [WeightedAverage]
    helper class, the [Browser] class (start / update / reconfigure /
    processFrame / reload / stop / destroy) and the single-browser
    actions of the [control] dispatcher.

    Conventions of the embedding.
    - A JavaScript number is a [num]: a rational, one of the two
      infinities, or NaN.  Rounding of IEEE doubles and the sign of
      zero are not represented.
    - Electron, NDI and the operator console are collaborators: every
      call into them is recorded as an [Event] in an output trace, and
      everything they answer is an argument of the embedded function.
    - Logging ([log.info]) is not recorded.
    - An [async] function is embedded by its outcome: the state it
      leaves, the trace it emits, and whether its promise is fulfilled
      or rejected.  A rejected promise keeps the state changes made
      before the [throw]. *)

From Stdlib Require Import QArith Qround ZArith Lia List Bool.
From stdpp Require Import base option strings gmap.
Import ListNotations.

Local Open Scope Z_scope.

(** ** JavaScript numbers *)

Inductive num : Type :=
| NaN
| NegInf
| Fin (q : Q)
| PosInf.

Definition Qlt_bool (x y : Q) : bool := negb (Qle_bool y x).

(** [a < b] of JavaScript; any comparison with NaN is false. *)
Definition num_lt (a b : num) : bool :=
  match a, b with
  | NaN, _ | _, NaN => false
  | NegInf, NegInf => false
  | NegInf, _ => true
  | Fin _, NegInf => false
  | Fin x, Fin y => Qlt_bool x y
  | Fin _, PosInf => true
  | PosInf, _ => false
  end.

Definition num_add (a b : num) : num :=
  match a, b with
  | NaN, _ | _, NaN => NaN
  | NegInf, PosInf | PosInf, NegInf => NaN
  | NegInf, _ | _, NegInf => NegInf
  | PosInf, _ | _, PosInf => PosInf
  | Fin x, Fin y => Fin (x + y)
  end.

Definition num_neg (a : num) : num :=
  match a with
  | NaN => NaN
  | NegInf => PosInf
  | Fin x => Fin (- x)
  | PosInf => NegInf
  end.

Definition num_sub (a b : num) : num := num_add a (num_neg b).

(** [a / b] of JavaScript: a finite non-zero number over zero is an
    infinity, zero over zero is NaN, a finite number over an infinity
    is zero. *)
Definition num_div (a b : num) : num :=
  match a, b with
  | NaN, _ | _, NaN => NaN
  | Fin x, Fin y =>
      if Qeq_bool y 0 then
        if Qeq_bool x 0 then NaN
        else if Qlt_bool 0 x then PosInf else NegInf
      else Fin (x / y)
  | Fin _, (NegInf | PosInf) => Fin 0
  | (NegInf | PosInf), (NegInf | PosInf) => NaN
  | PosInf, Fin y => if Qlt_bool y 0 then NegInf else PosInf
  | NegInf, Fin y => if Qlt_bool y 0 then PosInf else NegInf
  end.

(** [Math.trunc]: rounding towards zero. *)
Definition num_trunc (a : num) : num :=
  match a with
  | Fin x => Fin (inject_Z (Z.quot (Qnum x) (Zpos (Qden x))))
  | _ => a
  end.

Definition num_of_Z (z : Z) : num := Fin (inject_Z z).
Definition num_of_nat (n : nat) : num := Fin (inject_Z (Z.of_nat n)).

(** ** The helper class for weighted average calculations *)

(** The object handed to the callback of [record]. *)
Record StatSample : Type := mkStat {
  avg  : num;
  smin : num;   (* key [min] *)
  smax : num;   (* key [max] *)
  tmin : num;
  tmax : num
}.

Module WeightedAverage.

Record t : Type := mk {
  len   : nat;
  every : Q;
  val   : list Q;
  cnt   : nat;
  max   : num;
  min   : num
}.

(** [new WeightedAverage(len, every)]: the window starts as [len]
    zeros. *)
Definition constructor (len : nat) (every : Q) : t :=
  {| len := len; every := every; val := repeat 0%Q len; cnt := 0%nat;
     max := NegInf; min := PosInf |}.

(** The local variables of the loop of [record]. *)
Record acc : Type := mkAcc {
  a_avg : num;
  a_div : Q;
  a_max : num;
  a_min : num
}.

Definition acc0 : acc :=
  {| a_avg := Fin 0; a_div := 0%Q; a_max := NegInf; a_min := PosInf |}.

(** One iteration of the loop: [x] is [this.val[i]] ([None] is
    [undefined], which compares false and turns the sum into NaN) and
    [k] is [this.len - i]. *)
Definition body (x : option Q) (k : nat) (a : acc) : acc :=
  let kq := inject_Z (Z.of_nat k) in
  match x with
  | Some v =>
      {| a_avg := num_add (a_avg a) (Fin (v * kq));
         a_div := (a_div a + kq)%Q;
         a_max := if num_lt (a_max a) (Fin v) then Fin v else a_max a;
         a_min := if num_lt (Fin v) (a_min a) then Fin v else a_min a |}
  | None =>
      {| a_avg := NaN;
         a_div := (a_div a + kq)%Q;
         a_max := a_max a;
         a_min := a_min a |}
  end.

(** [for (let i = 0; i < this.len; i++)], with [n] the iterations
    left. *)
Fixpoint loop (len : nat) (vs : list Q) (n i : nat) (a : acc) : acc :=
  match n with
  | O => a
  | S n' => loop len vs n' (S i) (body (nth_error vs i) (len - i) a)
  end.

(** [this.val.pop(); this.val.unshift(val)]. *)
Definition shift (v : Q) (vs : list Q) : list Q := v :: removelast vs.

(** The part of [record] before the callback test: the shifted
    window, the loop, the division and the update of the all-time
    bounds.  The sum and the quotient are exact here and rounded
    doubles in the code; the bounds are comparisons and are the
    code's.  Returns the new object (its [cnt] untouched) and the
    sample the callback would receive. *)
Definition measure (v : Q) (w : t) : t * StatSample :=
  let vs := shift v (val w) in
  let a  := loop (len w) vs (len w) 0 acc0 in
  let av := num_div (a_avg a) (Fin (a_div a)) in
  let tmax' := if num_lt (max w) (a_max a) then a_max a else max w in
  let tmin' := if num_lt (a_max a) (min w) then a_max a else min w in
  ({| len := len w; every := every w; val := vs; cnt := cnt w;
      max := tmax'; min := tmin' |},
   {| avg := av; smin := a_min a; smax := a_max a;
      tmin := tmin'; tmax := tmax' |}).

Definition set_cnt (c : nat) (w : t) : t :=
  {| len := len w; every := every w; val := val w; cnt := c;
     max := max w; min := min w |}.

(** [record (val, callback)]: [Some s] when the callback is called
    with [s]. *)
Definition record (v : Q) (w : t) : t * option StatSample :=
  let '(w1, s) := measure v w in
  if num_lt (Fin (every w1)) (num_of_nat (cnt w1))
  then (set_cnt 0 w1, Some s)
  else (set_cnt (S (cnt w1)) w1, None).

(** Recording a list of values, oldest first; the samples handed to
    the callback are collected in order. *)
Fixpoint feed (vs : list Q) (w : t) : t * list StatSample :=
  match vs with
  | [] => (w, [])
  | v :: vs' =>
      let '(w1, o) := record v w in
      let '(w2, ss) := feed vs' w1 in
      (w2, match o with Some s => s :: ss | None => ss end)
  end.

End WeightedAverage.


(** ** Collaborators: windows, NDI senders, the console *)

(** Handle of an [electron.BrowserWindow]. *)
Definition Win := nat.
(** Handle of a [grandiose] sender. *)
Definition Sender := nat.

(** What can be thrown, or what a promise can be rejected with. *)
Inductive Exn : Type :=
| Error (msg : string)
| TypeError
| NdiError.

(** Completion of a call: a synchronous function returns or throws, the
    promise of an [async] function is fulfilled or rejected. *)
Inductive Result : Type :=
| Ok
| Fail (e : Exn).

(** The [image] argument of the frame callbacks. *)
Record Image : Type := mkImage {
  width  : Z;
  height : Z;
  bitmap : list Z
}.

(** The frame record handed to [ndiSender.video]. *)
Record Frame : Type := mkFrame {
  xres            : Z;
  yres            : Z;
  frameRateN      : Z;
  frameRateD      : Z;
  timestamp       : Z;   (* [t0], before the PTP conversion *)
  lineStrideBytes : Z;
  data            : list Z
}.

Inductive Event : Type :=
| NewBrowserWindow (w : Win) (offscreen : bool)
| SetAlwaysOnTop (w : Win) (on : bool)
| BeginFrameSubscription (w : Win)
| EndFrameSubscription (w : Win)
| OnPaint (w : Win)
| SetFrameRate (w : Win) (rate : Z)
| StartPainting (w : Win)
| LoadURL (w : Win) (url : string)
| WinReload (w : Win)
| WinClose (w : Win)
| WinDestroy (w : Win)
| SetTimeout (ms : Z)
| NdiSend (name : string)
| NdiVideo (s : Sender) (fr : Frame)
| ConsoleSend (channel : string) (id : string)
| ConsoleCapture (id : string)
| ConsoleBurst (id : string) (s : StatSample)
| UnhandledRejection (e : Exn).

(** Outcome of a call on a state of type [S]. *)
Record Out (S : Type) : Type := mkOut {
  state  : S;
  trace  : list Event;
  result : Result
}.
Arguments mkOut {S} _ _ _.
Arguments state {S} _.
Arguments trace {S} _.
Arguments result {S} _.

(** ** Browser configuration *)

(** The configuration object of a browser.  Numeric fields hold the
    value of [parseInt] on the stored string. *)
Record Cfg : Type := mkCfg {
  cfg_t : option string;   (* title, may be null *)
  cfg_w : Z;
  cfg_h : Z;
  cfg_u : string;          (* URL *)
  cfg_D : bool;            (* visible window *)
  cfg_N : bool;            (* NDI output *)
  cfg_P : bool;            (* preview *)
  cfg_p : bool;            (* always on top *)
  cfg_f : Z                (* frame rate *)
}.

(** The argument of [reconfigure]: the properties present in the
    object are [Some]. *)
Record CfgPatch : Type := mkPatch {
  new_t : option (option string);
  new_w : option Z;
  new_h : option Z;
  new_u : option string;
  new_D : option bool;
  new_N : option bool;
  new_P : option bool;
  new_p : option bool;
  new_f : option Z
}.

(** [Object.assign(this.cfg, cfg)]. *)
Definition assign (c : Cfg) (n : CfgPatch) : Cfg :=
  {| cfg_t := default (cfg_t c) (new_t n);
     cfg_w := default (cfg_w c) (new_w n);
     cfg_h := default (cfg_h c) (new_h n);
     cfg_u := default (cfg_u c) (new_u n);
     cfg_D := default (cfg_D c) (new_D n);
     cfg_N := default (cfg_N c) (new_N n);
     cfg_P := default (cfg_P c) (new_P n);
     cfg_p := default (cfg_p c) (new_p n);
     cfg_f := default (cfg_f c) (new_f n) |}.

(** What [electron.screen] and [grandiose.send] answer during one
    [start]. *)
Record StartEnv : Type := mkStartEnv {
  scaleFactor      : Q;
  displayFrequency : Z;
  newWin           : Win;            (* the window [new BrowserWindow] returns *)
  newSender        : option Sender   (* [None]: [grandiose.send] rejects *)
}.

(** What happens around the grace period of one [stop]. *)
Record StopEnv (S : Type) : Type := mkStopEnv {
  meanwhile   : S -> S;       (* other callbacks run while [stop] waits *)
  isDestroyed : Win -> bool   (* [win.isDestroyed()] when the timer fires *)
}.
Arguments meanwhile {S} _ _.
Arguments isDestroyed {S} _ _.

(** [Math.trunc((D.displayFrequency / this.framerate) - 1)]. *)
Definition framesToSkip (displayFrequency framerate : Z) : num :=
  num_trunc (num_sub (num_div (num_of_Z displayFrequency) (num_of_Z framerate))
                     (num_of_Z 1)).

(** ** The helper class for browser abstraction *)

Module Browser.

Record t : Type := mk {
  id              : string;
  cfg             : Cfg;
  win             : option Win;
  subscribed      : bool;
  ndiSender       : option Sender;
  ndiFramesToSkip : num;
  frames          : nat;
  burst           : option WeightedAverage.t;
  factor          : Q;
  framerate       : Z
}.

Definition set_cfg (c : Cfg) (b : t) : t :=
  mk (id b) c (win b) (subscribed b) (ndiSender b) (ndiFramesToSkip b)
     (frames b) (burst b) (factor b) (framerate b).
Definition set_win (w : option Win) (b : t) : t :=
  mk (id b) (cfg b) w (subscribed b) (ndiSender b) (ndiFramesToSkip b)
     (frames b) (burst b) (factor b) (framerate b).
Definition set_subscribed (s : bool) (b : t) : t :=
  mk (id b) (cfg b) (win b) s (ndiSender b) (ndiFramesToSkip b)
     (frames b) (burst b) (factor b) (framerate b).
Definition set_ndiSender (s : option Sender) (b : t) : t :=
  mk (id b) (cfg b) (win b) (subscribed b) s (ndiFramesToSkip b)
     (frames b) (burst b) (factor b) (framerate b).
Definition set_ndiFramesToSkip (k : num) (b : t) : t :=
  mk (id b) (cfg b) (win b) (subscribed b) (ndiSender b) k
     (frames b) (burst b) (factor b) (framerate b).
Definition set_frames (n : nat) (b : t) : t :=
  mk (id b) (cfg b) (win b) (subscribed b) (ndiSender b) (ndiFramesToSkip b)
     n (burst b) (factor b) (framerate b).
Definition set_burst (w : option WeightedAverage.t) (b : t) : t :=
  mk (id b) (cfg b) (win b) (subscribed b) (ndiSender b) (ndiFramesToSkip b)
     (frames b) w (factor b) (framerate b).
Definition set_factor (q : Q) (b : t) : t :=
  mk (id b) (cfg b) (win b) (subscribed b) (ndiSender b) (ndiFramesToSkip b)
     (frames b) (burst b) q (framerate b).
Definition set_framerate (r : Z) (b : t) : t :=
  mk (id b) (cfg b) (win b) (subscribed b) (ndiSender b) (ndiFramesToSkip b)
     (frames b) (burst b) (factor b) r.

Definition constructor (i : string) (c : Cfg) : t :=
  {| id := i; cfg := c; win := None; subscribed := false;
     ndiSender := None; ndiFramesToSkip := num_of_Z 0; frames := 0%nat;
     burst := None; factor := 1%Q; framerate := 30 |}.

Definition running (b : t) : bool :=
  match win b with Some _ => true | None => false end.

(** [start ()].  The choice of the display and of the position (the
    properties [d], [x] and [y] of the configuration) only feeds the
    options of the window and is not embedded: the configuration is
    taken to have [d] null or a string, on anything else
    [this.cfg.d.match] throws before a window is created.  The fields
    are assigned in the order of the source:
    [factor], then (after the window is created) [framerate], then
    [ndiSender] once [grandiose.send] has answered, [burst], the
    capture hook with [ndiFramesToSkip], and [win] last.  The window
    length of [burst] is [framerate], the number of times its loops
    run. *)
Definition start (e : StartEnv) (b : t) : Out t :=
  let c := cfg b in
  let title := default "Vingester"%string (cfg_t c) in
  let w := newWin e in
  let b1 := set_factor (scaleFactor e) b in
  let tr1 := [NewBrowserWindow w (negb (cfg_D c)); SetAlwaysOnTop w (cfg_p c)] in
  let fr := if cfg_N c then cfg_f c else displayFrequency e in
  let b2 := set_framerate fr b1 in
  let sent : option (option Sender * list Event) :=
    if cfg_N c then
      match newSender e with
      | Some s => Some (Some s, [NdiSend title])
      | None => None
      end
    else Some (None, []) in
  match sent with
  | None => mkOut b2 (tr1 ++ [NdiSend title]) (Fail NdiError)
  | Some (snd, tr2) =>
      let b3 := set_ndiSender snd b2 in
      let b4 :=
        set_burst (Some (WeightedAverage.constructor
                           (Z.to_nat fr) (inject_Z fr / 2)%Q)) b3 in
      let '(b5, tr3) :=
        if cfg_D c then
          let b' := set_ndiFramesToSkip
                      (framesToSkip (displayFrequency e) fr) b4 in
          if cfg_N c || cfg_P c
          then (set_subscribed true b', [BeginFrameSubscription w])
          else (b', [])
        else if cfg_N c then
          (set_ndiFramesToSkip (num_of_Z 0) b4,
           [OnPaint w; SetFrameRate w fr; StartPainting w])
        else (b4, []) in
      mkOut (set_win (Some w) b5)
            (tr1 ++ tr2 ++ tr3 ++ [LoadURL w (cfg_u c)]) Ok
  end.

Definition update (b : t) : t * list Event :=
  match win b with
  | Some w =>
      if cfg_D (cfg b) then
        if subscribed b && negb (cfg_P (cfg b))
        then (set_subscribed false b, [EndFrameSubscription w])
        else if negb (subscribed b) && cfg_P (cfg b)
        then (set_subscribed true b, [BeginFrameSubscription w])
        else (b, [])
      else (b, [])
  | None => (b, [])
  end.

Definition reconfigure (n : CfgPatch) (b : t) : t * list Event :=
  update (set_cfg (assign (cfg b) n) b).

(** [processFrame (image, dirty)]; [t0] and [t1] are the two readings
    of [Date.now()].  The preview image itself is built by Jimp and
    is not part of the trace. *)
Definition processFrame (image : Image) (t0 t1 : Z) (b : t) : Out t :=
  let c := cfg b in
  if negb (cfg_N c || cfg_P c) then mkOut b [] Ok
  else
    let tr1 := if cfg_P c then [ConsoleCapture (id b)] else [] in
    (* send NDI video frame *)
    let ndi : t * list Event * Result :=
      if cfg_N c then
        if num_lt (ndiFramesToSkip b) (num_of_nat (frames b)) then
          let b' := set_frames 0 b in
          let frame :=
            {| xres := width image; yres := height image;
               frameRateN := framerate b * 1000; frameRateD := 1000;
               timestamp := t0;
               lineStrideBytes := width image * 4;
               data := bitmap image |} in
          match ndiSender b with
          | Some s => (b', [NdiVideo s frame], Ok)
          | None => (b', [], Fail TypeError)
          end
        else (set_frames (S (frames b)) b, [], Ok)
      else (b, [], Ok) in
    let '(b1, tr2, r) := ndi in
    match r with
    | Fail e => mkOut b1 (tr1 ++ tr2) (Fail e)
    | Ok =>
        (* record processing time *)
        match burst b1 with
        | None => mkOut b1 (tr1 ++ tr2) (Fail TypeError)
        | Some wa =>
            let '(wa', o) := WeightedAverage.record (inject_Z (t1 - t0)) wa in
            let tr3 := match o with
                       | Some s => [ConsoleBurst (id b) s]
                       | None => []
                       end in
            mkOut (set_burst (Some wa') b1) (tr1 ++ tr2 ++ tr3) Ok
        end
    end.

Definition reload (b : t) : Out t :=
  match win b with
  | None => mkOut b [] (Fail (Error "still not started"))
  | Some w => mkOut b [WinReload w] Ok
  end.

Definition destroy (b : t) : Out t :=
  match win b with
  | None => mkOut b [] (Fail (Error "still not started"))
  | Some w => mkOut (set_win None b) [WinDestroy w] Ok
  end.

(** The [close] handler installed by [start]. *)
Definition on_close (b : t) : Out t := destroy b.

(** [stop ()] up to its [await]: the check, [win.close()] and the
    timer of 1000 ms. *)
Definition stop_request (b : t) : Out t :=
  match win b with
  | None => mkOut b [] (Fail (Error "still not started"))
  | Some w => mkOut b [WinClose w; SetTimeout 1000] Ok
  end.

(** The callback of the timer of [stop]. *)
Definition stop_timeout (destroyed : Win -> bool) (b : t) : t * list Event :=
  match win b with
  | Some w =>
      (set_win None b, if destroyed w then [] else [WinDestroy w])
  | None => (b, [])
  end.

(** [stop ()] awaited to the end. *)
Definition stop (e : StopEnv t) (b : t) : Out t :=
  let o := stop_request b in
  match result o with
  | Fail _ => o
  | Ok =>
      let '(b', tr) := stop_timeout (isDestroyed e) (meanwhile e (state o)) in
      mkOut b' (trace o ++ tr) Ok
  end.

(** A surface delivering frames one after the other, each processed
    to the end before the next; a rejected [processFrame] is an
    unhandled rejection and the surface goes on. *)
Fixpoint deliver (fs : list (Image * Z * Z)) (b : t) : t * list Event :=
  match fs with
  | [] => (b, [])
  | (image, t0, t1) :: fs' =>
      let o := processFrame image t0 t1 b in
      let '(b', tr) := deliver fs' (state o) in
      (b', trace o
             ++ match result o with
                | Ok => []
                | Fail e => [UnhandledRejection e]
                end
             ++ tr)
  end.

End Browser.

(** ** The control dispatcher *)

(** The single-browser actions of [control], each with the
    configuration argument it uses.  The bulk actions ([start-all],
    [reload-all], [stop-all]) call [control] again without awaiting it
    and are not embedded. *)
Inductive Action : Type :=
| Add (c : Cfg)
| Mod (n : CfgPatch)
| Del
| Start
| Reload
| Stop.

(** What the collaborators answer during one [control] call. *)
Record Env : Type := mkEnv {
  onStart : StartEnv;
  onStop  : StopEnv Browser.t
}.

(** Writes the outcome of a method of [browsers[id]] back into the
    registry (the registry holds the object the method mutates). *)
Definition store (i : string) (reg : gmap string Browser.t)
    (o : Out Browser.t) : gmap string Browser.t :=
  <[i := state o]> reg.

(** The registry [browsers] is a plain object, so [browsers[id]] also
    finds what the object inherits.  The map holds the own properties
    and, under the key ["__proto__"], the browser that an
    [add] with that id has made the prototype of the object (the
    assignment [browsers["__proto__"] = ...] sets the prototype instead
    of adding a property, and reading that key gives the prototype
    back). *)

(** The members of [Object.prototype]. *)
Definition object_prototype_members : list string :=
  ["constructor"; "__defineGetter__"; "__defineSetter__"; "hasOwnProperty";
   "__lookupGetter__"; "__lookupSetter__"; "isPrototypeOf";
   "propertyIsEnumerable"; "toString"; "valueOf"; "__proto__";
   "toLocaleString"]%string.

(** The fields of a [Browser] object and the methods of its class,
    inherited once a browser is the prototype. *)
Definition browser_members : list string :=
  ["id"; "cfg"; "win"; "subscribed"; "ndiSender"; "ndiFramesToSkip";
   "frames"; "burst"; "factor"; "framerate"; "mainWin";
   "constructor"; "reconfigure"; "running"; "start"; "update";
   "processFrame"; "reload"; "stop"; "destroy"]%string.

Definition named (i : string) (names : list string) : bool :=
  existsb (String.eqb i) names.

(** What [browsers[id]] yields: a browser of the registry, something
    inherited that is no browser (it is not [undefined], and calling a
    [Browser] method on it is a [TypeError]), or [undefined]. *)
Inductive Slot : Type :=
| Own (b : Browser.t)
| Inherited
| Undefined.

Definition browsers_get (browsers : gmap string Browser.t) (i : string)
    : Slot :=
  match browsers !! i with
  | Some b => Own b
  | None =>
      if named i object_prototype_members
         || (match browsers !! "__proto__"%string with
             | Some _ => true
             | None => false
             end && named i browser_members)
      then Inherited
      else Undefined
  end.

(** [delete browsers[id]]: the prototype is no own property and stays. *)
Definition browsers_delete (i : string) (browsers : gmap string Browser.t)
    : gmap string Browser.t :=
  if String.eqb i "__proto__" then browsers else delete i browsers.

(** [control (action, id, cfg)] on the registry [browsers].  An awaited
    [start] or [stop] is taken to its end within the call. *)
Definition control (e : Env) (action : Action) (i : string)
    (browsers : gmap string Browser.t) : Out (gmap string Browser.t) :=
  match action with
  | Add c =>
      mkOut (<[i := Browser.constructor i c]> browsers) [] Ok
  | Mod n =>
      match browsers_get browsers i with
      | Own b =>
          let '(b', tr) := Browser.reconfigure n b in
          mkOut (<[i := b']> browsers) tr Ok
      | Inherited | Undefined => mkOut browsers [] (Fail TypeError)
      end
  | Del =>
      match browsers_get browsers i with
      | Own b =>
          (* [browsers[id].stop()] is not awaited: it runs up to its
             timer, and a rejection stays with the dropped promise *)
          let o := Browser.stop_request b in
          mkOut (browsers_delete i browsers)
                (trace o ++ match result o with
                            | Ok => []
                            | Fail x => [UnhandledRejection x]
                            end)
                Ok
      | Inherited =>
          (* [browsers[id].stop] is not a function: the throw is in
             [control] itself, before the [delete] *)
          mkOut browsers [] (Fail TypeError)
      | Undefined => mkOut (browsers_delete i browsers) [] Ok
      end
  | Start =>
      match browsers_get browsers i with
      | Undefined => mkOut browsers [] (Fail (Error "invalid browser id"))
      | Inherited => mkOut browsers [] (Fail TypeError)
      | Own b =>
          if Browser.running b
          then mkOut browsers [] (Fail (Error "browser already running"))
          else
            let o := Browser.start (onStart e) b in
            mkOut (store i browsers o)
                  (ConsoleSend "browser-start" i :: trace o
                     ++ match result o with
                        | Ok => [ConsoleSend "browser-started" i]
                        | Fail _ => []
                        end)
                  (result o)
      end
  | Reload =>
      match browsers_get browsers i with
      | Undefined => mkOut browsers [] (Fail (Error "invalid browser id"))
      | Inherited => mkOut browsers [] (Fail TypeError)
      | Own b =>
          if negb (Browser.running b)
          then mkOut browsers [] (Fail (Error "browser still not running"))
          else
            let o := Browser.reload b in
            mkOut (store i browsers o)
                  (ConsoleSend "browser-reload" i :: trace o
                     ++ match result o with
                        | Ok => [ConsoleSend "browser-reloaded" i]
                        | Fail _ => []
                        end)
                  (result o)
      end
  | Stop =>
      match browsers_get browsers i with
      | Undefined => mkOut browsers [] (Fail (Error "invalid browser id"))
      | Inherited => mkOut browsers [] (Fail TypeError)
      | Own b =>
          if negb (Browser.running b)
          then mkOut browsers [] (Fail (Error "browser still not running"))
          else
            let o := Browser.stop (onStop e) b in
            mkOut (store i browsers o)
                  (ConsoleSend "browser-stop" i :: trace o
                     ++ match result o with
                        | Ok => [ConsoleSend "browser-stopped" i]
                        | Fail _ => []
                        end)
                  (result o)
      end
  end.

(** ** Observing the rate governor *)

Definition is_video (e : Event) : bool :=
  match e with NdiVideo _ _ => true | _ => false end.

(** Whether a call of [processFrame] handed a frame to the NDI sink. *)
Definition sent (o : Out Browser.t) : bool := existsb is_video (trace o).

(** One verdict per frame arrival, in arrival order. *)
Fixpoint verdicts (fs : list (Image * Z * Z)) (b : Browser.t) : list bool :=
  match fs with
  | [] => []
  | (image, t0, t1) :: fs' =>
      let o := Browser.processFrame image t0 t1 b in
      sent o :: verdicts fs' (state o)
  end.

Definition forwarded (fs : list (Image * Z * Z)) (b : Browser.t) : nat :=
  length (List.filter (fun v : bool => v) (verdicts fs b)).

(** Sample inputs. *)
Definition cfg_polled : Cfg :=
  {| cfg_t := Some "cam"%string; cfg_w := 1280; cfg_h := 720;
     cfg_u := "http://localhost/"%string;
     cfg_D := true; cfg_N := true; cfg_P := false; cfg_p := false;
     cfg_f := 30 |}.

Definition cfg_push : Cfg :=
  {| cfg_t := Some "cam"%string; cfg_w := 1280; cfg_h := 720;
     cfg_u := "http://localhost/"%string;
     cfg_D := false; cfg_N := true; cfg_P := false; cfg_p := false;
     cfg_f := 30 |}.

Definition display60 : StartEnv :=
  {| scaleFactor := 1; displayFrequency := 60; newWin := 1%nat;
     newSender := Some 7%nat |}.

Definition image0 : Image := {| width := 2; height := 1; bitmap := [] |}.

(** [n] arrivals, 16 ms apart, each processed in 1 ms. *)
Definition arrivals (n : nat) : list (Image * Z * Z) :=
  map (fun i : nat => (image0, 16 * Z.of_nat i, 16 * Z.of_nat i + 1)) (seq 0 n).

(** ** Notions and sample inputs of the statements *)

(** A browser that sends NDI video with skip threshold [k]. *)
Definition governed (k : nat) (b : Browser.t) : Prop :=
  cfg_N (Browser.cfg b) = true /\
  is_Some (Browser.ndiSender b) /\
  is_Some (Browser.burst b) /\
  Browser.ndiFramesToSkip b = num_of_nat k.

(** The counter after one arrival. *)
Definition next_frames (k j : nat) : nat :=
  if (k <? j)%nat then 0%nat else S j.

(** The delays of the timers set in a trace. *)
Fixpoint timeouts (tr : list Event) : list Z :=
  match tr with
  | [] => []
  | SetTimeout ms :: tr' => ms :: timeouts tr'
  | _ :: tr' => timeouts tr'
  end.

(** A surface that never reacts to [win.close()]: nothing happens to
    the browser during the grace period and the window is still alive
    when the timer fires. *)
Definition never_closes : StopEnv Browser.t :=
  {| meanwhile := fun b => b; isDestroyed := fun _ => false |}.

(** A surface that reacts to [win.close()] at once: the [close] handler
    runs and the window is destroyed before the timer fires. *)
Definition closes_itself : StopEnv Browser.t :=
  {| meanwhile := fun b => state (Browser.on_close b);
     isDestroyed := fun _ => true |}.

(** A browser with a visible window and NDI output at rate 30, started
    on a display refreshing at 60. *)
Definition running_a : Browser.t :=
  state (Browser.start display60 (Browser.constructor "a" cfg_polled)).

Definition env0 : Env := {| onStart := display60; onStop := never_closes |}.

Definition stopped_b : Browser.t := Browser.constructor "b" cfg_push.

Definition registry0 : gmap string Browser.t :=
  <["b" := stopped_b]> (<["a" := running_a]> ∅).

(** Reconfiguration to the target rate 60. *)
Definition rate_60 : CfgPatch :=
  {| new_t := None; new_w := None; new_h := None; new_u := None;
     new_D := None; new_N := None; new_P := None; new_p := None;
     new_f := Some 60 |}.

(** Reconfiguration from a visible window to off-screen rendering. *)
Definition to_offscreen : CfgPatch :=
  {| new_t := None; new_w := None; new_h := None; new_u := None;
     new_D := Some false; new_N := None; new_P := None; new_p := None;
     new_f := None |}.

(** The browser [running_a] after one frame arrival: threshold 1,
    counter 1. *)
Definition running_a1 : Browser.t :=
  fst (Browser.deliver (arrivals 1) running_a).

(** The window after the values [inputs] (oldest first) went into a
    tracker of length [n]: the newest first, padded with the zeros of
    the constructor while fewer than [n] values were recorded. *)
Definition window (n : nat) (inputs : list Q) : list Q :=
  firstn n (rev inputs ++ repeat 0%Q n).

(** The loop as a recursion on the part of the window not yet
    visited; [i] is the index of its head. *)
Fixpoint scan (len : nat) (l : list Q) (i : nat)
    (a : WeightedAverage.acc) : WeightedAverage.acc :=
  match l with
  | [] => a
  | x :: l' =>
      scan len l' (S i) (WeightedAverage.body (Some x) (len - i) a)
  end.

(** [M] is the greatest of the values [seen] (no value seen: the
    initial minus infinity). *)
Definition greatest (M : num) (seen : list Q) : Prop :=
  match M with
  | NegInf => seen = []
  | Fin m => In m seen /\ Forall (fun x => (x <= m)%Q) seen
  | _ => False
  end.

Definition least (M : num) (seen : list Q) : Prop :=
  match M with
  | PosInf => seen = []
  | Fin m => In m seen /\ Forall (fun x => (m <= x)%Q) seen
  | _ => False
  end.

(** The tracker of the CPU usage, [new WeightedAverage(20, 5)]: it
    calls back on every seventh [record]. *)
Definition usages : WeightedAverage.t := WeightedAverage.constructor 20 5.

(** The values 1, 2, ..., [n], oldest first. *)
Definition ramp (n : nat) : list Q :=
  map (fun i : nat => inject_Z (Z.of_nat i)) (seq 1 n).

(** The values [m], ..., 2, 1. *)
Fixpoint down (m : nat) : list Q :=
  match m with
  | O => []
  | S m' => inject_Z (Z.of_nat (S m')) :: down m'
  end.

(** 1 + 2 + ... + m and 1 + 4 + ... + m * m. *)
Fixpoint tri (m : nat) : Z :=
  match m with
  | O => 0
  | S m' => tri m' + Z.of_nat (S m')
  end.

Fixpoint sq (m : nat) : Z :=
  match m with
  | O => 0
  | S m' => sq m' + Z.of_nat (S m') * Z.of_nat (S m')
  end.

(** ** Further notions: emission of samples *)

(** One flag per [record] call, in call order: whether the callback was
    called. *)
Fixpoint emissions (vs : list Q) (w : WeightedAverage.t) : list bool :=
  match vs with
  | [] => []
  | v :: vs' =>
      let o := WeightedAverage.record v w in
      match snd o with Some _ => true | None => false end
        :: emissions vs' (fst o)
  end.

(** A counter that is reset when it exceeds [k] and incremented
    otherwise, observed for [n] steps from the value [j]: the pattern
    of both [this.cnt++ > this.every] and
    [this.frames++ > this.ndiFramesToSkip]. *)
Fixpoint ticks (k j n : nat) : list bool :=
  match n with
  | O => []
  | S n' => (k <? j)%nat :: ticks k (next_frames k j) n'
  end.

(** [T] bounds the values [seen] from above (no value seen: the
    initial minus infinity). *)
Definition upper (T : num) (seen : list Q) : Prop :=
  match T with
  | NegInf => seen = []
  | Fin t => Forall (fun x => (x <= t)%Q) seen
  | _ => False
  end.

(** ** Further notions: observing the preview *)

Definition is_capture (e : Event) : bool :=
  match e with ConsoleCapture _ => true | _ => false end.

(** A visible window with NDI output at the frame rate 0. *)
Definition cfg_rate_0 : Cfg :=
  {| cfg_t := None; cfg_w := 1280; cfg_h := 720;
     cfg_u := "http://localhost/"%string;
     cfg_D := true; cfg_N := true; cfg_P := false; cfg_p := false;
     cfg_f := 0 |}.

(** A visible window with neither NDI output nor preview. *)
Definition cfg_quiet : Cfg :=
  {| cfg_t := None; cfg_w := 1280; cfg_h := 720;
     cfg_u := "http://localhost/"%string;
     cfg_D := true; cfg_N := false; cfg_P := false; cfg_p := false;
     cfg_f := 30 |}.

(** A browser that is not running and on which every method needing a
    window throws. *)
Definition needs_start (e : StopEnv Browser.t) (b : Browser.t) : Prop :=
  Browser.running b = false /\
  Browser.reload b = mkOut b [] (Fail (Error "still not started")) /\
  Browser.destroy b = mkOut b [] (Fail (Error "still not started")) /\
  Browser.stop e b = mkOut b [] (Fail (Error "still not started")).

(** ** Further notions: the dispatcher *)

Definition is_load (e : Event) : bool :=
  match e with LoadURL _ _ => true | _ => false end.

(** A display on which [grandiose.send] fails. *)
Definition no_ndi : StartEnv :=
  {| scaleFactor := 1; displayFrequency := 60; newWin := 2%nat;
     newSender := None |}.

(** The events of one accepted [reload]. *)
Definition reload_events (i : string) (w : Win) : list Event :=
  [ConsoleSend "browser-reload" i; WinReload w;
   ConsoleSend "browser-reloaded" i].

(** The action [reload-all]: [keys] is what [Object.keys(browsers)]
    returns.  The [reload] branch of [control] has no [await], so each
    inner call runs to its end before the loop goes on; its promise is
    dropped. *)
Fixpoint reload_all (e : Env) (keys : list string)
    (browsers : gmap string Browser.t) : Out (gmap string Browser.t) :=
  match keys with
  | [] => mkOut browsers [] Ok
  | i :: keys' =>
      match browsers !! i with
      | None => mkOut browsers [] (Fail TypeError)
      | Some b =>
          if Browser.running b then
            let o := control e Reload i browsers in
            let o' := reload_all e keys' (state o) in
            mkOut (state o')
                  (trace o
                     ++ match result o with
                        | Ok => []
                        | Fail x => [UnhandledRejection x]
                        end
                     ++ trace o')
                  (result o')
          else reload_all e keys' browsers
      end
  end.

(** What [reload-all] sends for the key [i]. *)
Definition reload_all_events (browsers : gmap string Browser.t) (i : string)
    : list Event :=
  match browsers !! i with
  | Some b =>
      match Browser.win b with
      | Some w => reload_events i w
      | None => []
      end
  | None => []
  end.

(** A browser whose NDI sender could not be established is registered
    under ["n"]. *)
Definition registry_ndi : gmap string Browser.t :=
  <["n" := Browser.constructor "n" cfg_polled]> ∅.

Definition env_no_ndi : Env := {| onStart := no_ndi; onStop := never_closes |}.

(** ** Further notions: the preview bytes *)

(** The callback [processFrame] gives to [img.scan], on a byte buffer:
    the bytes at [idx] and [idx + 2] change places.  Reading a Buffer
    out of range gives [undefined], which is stored as 0; writing out
    of range does nothing. *)
Definition swap_at (idx : nat) (d : list Z) : list Z :=
  let B := d !! idx in
  let d1 := <[idx := default 0 (d !! (idx + 2)%nat)]> d in
  <[(idx + 2)%nat := default 0 B]> d1.

(** The indices Jimp's [scan (0, 0, w, h, f)] hands to [f]: row by row,
    [idx = (w * y + x) << 2]. *)
Definition scan_indices (w h : nat) : list nat :=
  List.flat_map (fun y => map (fun x => (4 * (w * y + x))%nat) (seq 0 w))
                (seq 0 h).

(** The conversion from BGRA to RGBA of the preview image. *)
Definition bgra_to_rgba (w h : nat) (d : list Z) : list Z :=
  fold_left (fun d idx => swap_at idx d) (scan_indices w h) d.

(** The bytes of the preview sent to the console; [le] is
    [os.endianness() === "LE"]. *)
Definition preview_bytes (le : bool) (w h : nat) (d : list Z) : list Z :=
  if le then bgra_to_rgba w h d else d.

(** Red and blue exchanged pixel by pixel. *)
Fixpoint swap_rb (d : list Z) : list Z :=
  match d with
  | b :: g :: r :: a :: rest => r :: g :: b :: a :: swap_rb rest
  | _ => d
  end.

(** * Properties *)

(** ** Reading the registry *)

Lemma browsers_get_own (browsers : gmap string Browser.t) (i : string)
    (b : Browser.t) :
  browsers !! i = Some b -> browsers_get browsers i = Own b.
Proof. intros H. unfold browsers_get. rewrite H. reflexivity. Qed.

Lemma browsers_get_undefined (browsers : gmap string Browser.t) (i : string) :
  browsers_get browsers i = Undefined ->
  browsers !! i = None /\ i <> "__proto__"%string.
Proof.
  unfold browsers_get. destruct (browsers !! i) eqn:E; [discriminate|].
  intros H. split; [reflexivity|]. intros ->. cbn in H. discriminate H.
Qed.

Lemma browsers_delete_plain (browsers : gmap string Browser.t) (i : string) :
  i <> "__proto__"%string -> browsers_delete i browsers = delete i browsers.
Proof.
  intros H. unfold browsers_delete.
  destruct (String.eqb_spec i "__proto__"); [contradiction|reflexivity].
Qed.

(** ** Numbers *)

Lemma Qlt_bool_inject_Z (a b : Z) :
  Qlt_bool (inject_Z a) (inject_Z b) = (a <? b).
Proof.
  unfold Qlt_bool, Qle_bool; simpl.
  rewrite !Z.mul_1_r. rewrite Z.ltb_antisym. reflexivity.
Qed.

Lemma num_lt_nat (a b : nat) :
  num_lt (num_of_nat a) (num_of_nat b) = (a <? b)%nat.
Proof.
  unfold num_of_nat; simpl. rewrite Qlt_bool_inject_Z.
  destruct (Nat.ltb_spec a b); [apply Z.ltb_lt | apply Z.ltb_ge]; lia.
Qed.

Lemma Qlt_bool_true (x y : Q) : Qlt_bool x y = true <-> (x < y)%Q.
Proof.
  unfold Qlt_bool. rewrite negb_true_iff.
  split; intros H.
  - apply Qnot_le_lt. intros Hle. apply Qle_bool_iff in Hle. congruence.
  - destruct (Qle_bool y x) eqn:E; [|reflexivity].
    apply Qle_bool_iff in E. exfalso. exact (Qlt_not_le _ _ H E).
Qed.

Lemma Qlt_bool_false (x y : Q) : Qlt_bool x y = false <-> (y <= x)%Q.
Proof.
  unfold Qlt_bool. rewrite negb_false_iff. apply Qle_bool_iff.
Qed.

(** ** The rate governor inside [processFrame] *)

Section Governor.

Variable k : nat.

Lemma processFrame_governed image t0 t1 b :
  governed k b ->
  let o := Browser.processFrame image t0 t1 b in
  governed k (state o) /\
  sent o = (k <? Browser.frames b)%nat /\
  Browser.frames (state o) = next_frames k (Browser.frames b).
Proof.
  intros (HN & [s Hs] & [wa Hwa] & Hk).
  unfold Browser.processFrame, sent, next_frames, governed.
  rewrite HN, Hk, num_lt_nat, Hs. simpl negb. cbv iota.
  destruct (k <? Browser.frames b)%nat eqn:E; simpl Browser.burst;
    rewrite Hwa;
    destruct (WeightedAverage.record _ wa) as [wa' [st|]];
    destruct (cfg_P (Browser.cfg b)); simpl;
    rewrite ?HN, ?Hs, ?Hk; eauto 10.
Qed.

(** Starting with the counter at [j <= k + 1], the arrival at
    position [n] (counted from 0) is forwarded exactly when
    [j + n + 1] is a multiple of [k + 2]. *)
Lemma verdicts_nth fs : forall b n,
  governed k b ->
  (Browser.frames b <= S k)%nat ->
  (n < length fs)%nat ->
  nth n (verdicts fs b) false
  = ((Browser.frames b + n + 1) mod (k + 2) =? 0)%nat.
Proof.
  induction fs as [|[[image t0] t1] fs IH]; intros b n Hg Hj Hn;
    [simpl in Hn; lia|].
  destruct (processFrame_governed image t0 t1 b Hg) as (Hg' & Hs & Hf).
  cbn [verdicts]. destruct n as [|n].
  - cbn [nth]. rewrite Hs.
    destruct (Nat.ltb_spec k (Browser.frames b)) as [Hlt|Hge].
    + replace (Browser.frames b + 0 + 1)%nat with (k + 2)%nat by lia.
      rewrite Nat.Div0.mod_same. reflexivity.
    + rewrite Nat.mod_small by lia. symmetry. apply Nat.eqb_neq. lia.
  - cbn [nth]. rewrite IH; [|assumption| |simpl in Hn; lia].
    + rewrite Hf. unfold next_frames.
      destruct (Nat.ltb_spec k (Browser.frames b)) as [Hlt|Hge].
      * replace (Browser.frames b + S n + 1)%nat
          with (0 + n + 1 + 1 * (k + 2))%nat by lia.
        rewrite Nat.Div0.mod_add. reflexivity.
      * f_equal. f_equal. lia.
    + rewrite Hf. unfold next_frames.
      destruct (Nat.ltb_spec k (Browser.frames b)); lia.
Qed.

End Governor.

Lemma succ_mod2 (n : nat) : ((n + 1) mod 2 =? 0)%nat = Nat.odd n.
Proof.
  destruct (Nat.Even_or_Odd n) as [[q ->]|[q ->]].
  - rewrite Nat.odd_even.
    replace (2 * q + 1)%nat with (1 + q * 2)%nat by lia.
    rewrite Nat.Div0.mod_add. reflexivity.
  - rewrite Nat.odd_odd.
    replace (2 * q + 1 + 1)%nat with (0 + (q + 1) * 2)%nat by lia.
    rewrite Nat.Div0.mod_add. reflexivity.
Qed.

(** With threshold [k] and the counter at 0, the governor forwards the
    arrivals at positions [k + 1], [2k + 3], ... (counted from 0): one
    of every [k + 2]. *)
Lemma governor_period (k : nat) fs b n :
  governed k b ->
  Browser.frames b = 0%nat ->
  (n < length fs)%nat ->
  nth n (verdicts fs b) false = ((n + 1) mod (k + 2) =? 0)%nat.
Proof.
  intros Hg H0 Hn.
  rewrite (verdicts_nth k fs b n Hg); [|lia|assumption].
  rewrite H0. reflexivity.
Qed.

(** C1 (the code departs from the claim).  A browser constructed with a
    visible window, NDI output and target rate 30 and started on a
    display refreshing at 60 gets the skip threshold 1; of 10
    consecutive frame-subscription callbacks it then hands the third,
    sixth and ninth to the NDI sink: 3 frames, one of every three
    arrivals, where the claim expects 5, one of every two. *)
Theorem polled_60_30_forwards_3_of_10 :
  let b := state (Browser.start display60
                    (Browser.constructor "a" cfg_polled)) in
  Browser.running b = true /\
  Browser.ndiFramesToSkip b = num_of_Z 1 /\
  verdicts (arrivals 10) b
  = [false; false; true; false; false; true; false; false; true; false] /\
  forwarded (arrivals 10) b = 3%nat.
Proof. vm_compute. repeat split; reflexivity. Qed.

Lemma start_push_governed i c e s :
  cfg_D c = false -> cfg_N c = true -> newSender e = Some s ->
  let o := Browser.start e (Browser.constructor i c) in
  result o = Ok /\
  Browser.ndiFramesToSkip (state o) = num_of_Z 0 /\
  Browser.frames (state o) = 0%nat /\
  governed 0 (state o).
Proof.
  intros HD HN Hs. unfold Browser.start, governed.
  cbn [Browser.cfg Browser.constructor]. rewrite HD, HN, Hs.
  cbn. rewrite HN. repeat split; eauto.
Qed.

(** C2 (the code departs from the claim).  Starting a freshly
    constructed browser off-screen with NDI output sets the skip
    threshold to 0, but the paint callbacks are not all forwarded: the
    first one hands nothing to the NDI sink, and of any run of paint
    callbacks only those at odd positions (counted from 0) do. *)
Theorem push_mode_skips_every_other_paint i c e s :
  cfg_D c = false -> cfg_N c = true -> newSender e = Some s ->
  let o := Browser.start e (Browser.constructor i c) in
  result o = Ok /\
  Browser.ndiFramesToSkip (state o) = num_of_Z 0 /\
  (forall image t0 t1,
     sent (Browser.processFrame image t0 t1 (state o)) = false) /\
  (forall fs n, (n < length fs)%nat ->
     nth n (verdicts fs (state o)) false = Nat.odd n).
Proof.
  intros HD HN Hs.
  destruct (start_push_governed i c e s HD HN Hs) as (Hr & Hk & Hf & Hg).
  cbv zeta. repeat split; try assumption.
  - intros image t0 t1.
    destruct (processFrame_governed 0 image t0 t1 _ Hg) as (_ & Hsent & _).
    rewrite Hsent, Hf. reflexivity.
  - intros fs n Hn. rewrite (governor_period 0 fs _ n Hg Hf Hn).
    apply succ_mod2.
Qed.

Lemma push_mode_skips_every_other_paint_witness :
  let o := Browser.start display60 (Browser.constructor "a" cfg_push) in
  result o = Ok /\
  Browser.ndiFramesToSkip (state o) = num_of_Z 0 /\
  (forall image t0 t1,
     sent (Browser.processFrame image t0 t1 (state o)) = false) /\
  (forall fs n, (n < length fs)%nat ->
     nth n (verdicts fs (state o)) false = Nat.odd n).
Proof.
  apply (push_mode_skips_every_other_paint "a" cfg_push display60 7%nat);
    reflexivity.
Defined.

(** ** The lifecycle of a browser *)

Lemma timeouts_app (tr1 tr2 : list Event) :
  timeouts (tr1 ++ tr2) = timeouts tr1 ++ timeouts tr2.
Proof.
  induction tr1 as [|ev tr1 IH]; [reflexivity|].
  destruct ev; simpl; rewrite ?IH; reflexivity.
Qed.

Lemma stop_timeout_spec destroyed b :
  Browser.win (fst (Browser.stop_timeout destroyed b)) = None /\
  timeouts (snd (Browser.stop_timeout destroyed b)) = [] /\
  (forall w, Browser.win b = Some w -> destroyed w = false ->
     In (WinDestroy w) (snd (Browser.stop_timeout destroyed b))).
Proof.
  unfold Browser.stop_timeout.
  destruct (Browser.win b) as [w|] eqn:Hw.
  - repeat split; [destruct (destroyed w); reflexivity|].
    intros w' [= <-] Hd. rewrite Hd. left; reflexivity.
  - repeat split; [assumption|]. intros w' [=].
Qed.

(** C3.  [stop ()] on a running browser is fulfilled with the window
    handle null, whatever happens to the browser while it waits and
    whether or not the window reports being destroyed; it sets exactly
    one timer, of 1000 ms; the window held when the timer fires is
    destroyed by force unless it already is.  When the surface never
    reacts, the trace is: close, the timer, destroy. *)
Theorem stop_reaches_stopped (e : StopEnv Browser.t) (b : Browser.t) :
  Browser.running b = true ->
  let o := Browser.stop e b in
  result o = Ok /\
  Browser.running (state o) = false /\
  Browser.win (state o) = None /\
  timeouts (trace o) = [1000] /\
  (forall w, Browser.win (meanwhile e b) = Some w ->
     isDestroyed e w = false -> In (WinDestroy w) (trace o)) /\
  (forall w, Browser.win b = Some w ->
     Browser.stop never_closes b
     = mkOut (Browser.set_win None b)
             [WinClose w; SetTimeout 1000; WinDestroy w] Ok).
Proof.
  unfold Browser.running, Browser.stop, Browser.stop_request.
  destruct (Browser.win b) as [w|] eqn:Hw; [intros _|discriminate].
  cbn [result state trace].
  destruct (stop_timeout_spec (isDestroyed e) (meanwhile e b))
    as (Hnone & Ht & Hd).
  destruct (Browser.stop_timeout (isDestroyed e) (meanwhile e b))
    as [b' tr] eqn:E.
  cbn [fst snd] in *. cbn [result state trace].
  rewrite Hnone. repeat split.
  - rewrite timeouts_app, Ht. reflexivity.
  - intros w' Hw' Hd'. apply in_or_app. right. auto.
  - intros w' [= <-]. unfold Browser.stop_timeout. cbn. rewrite Hw.
    reflexivity.
Qed.

Lemma stop_reaches_stopped_witness :
  let o := Browser.stop never_closes running_a in
  result o = Ok /\
  Browser.running (state o) = false /\
  Browser.win (state o) = None /\
  timeouts (trace o) = [1000] /\
  (forall w, Browser.win (meanwhile never_closes running_a) = Some w ->
     isDestroyed never_closes w = false -> In (WinDestroy w) (trace o)) /\
  (forall w, Browser.win running_a = Some w ->
     Browser.stop never_closes running_a
     = mkOut (Browser.set_win None running_a)
             [WinClose w; SetTimeout 1000; WinDestroy w] Ok).
Proof.
  apply (stop_reaches_stopped never_closes running_a). reflexivity.
Defined.

(** When the surface reports its closure the timer finds the handle
    null already and has nothing left to do. *)
Example stop_after_self_closure :
  Browser.stop closes_itself running_a
  = mkOut (Browser.set_win None running_a)
          [WinClose 1%nat; SetTimeout 1000] Ok.
Proof. vm_compute. reflexivity. Qed.

(** The same through the dispatcher: the registry entry ends with no
    window and the console hears [browser-stop] first and
    [browser-stopped] last. *)
Lemma control_stop_running (e : Env) (i : string)
    (browsers : gmap string Browser.t) (b : Browser.t) :
  browsers !! i = Some b ->
  Browser.running b = true ->
  let o := control e Stop i browsers in
  result o = Ok /\
  (exists b', state o !! i = Some b' /\ Browser.win b' = None) /\
  (exists tr, trace o = ConsoleSend "browser-stop" i :: tr
                          ++ [ConsoleSend "browser-stopped" i]).
Proof.
  intros Hb Hr. unfold control. rewrite (browsers_get_own _ _ _ Hb), Hr. cbn [negb].
  unfold Browser.stop, Browser.stop_request.
  unfold Browser.running in Hr.
  destruct (Browser.win b) as [w|]; [|discriminate].
  cbn [result state trace].
  destruct (stop_timeout_spec (isDestroyed (onStop e)) (meanwhile (onStop e) b))
    as (Hnone & _).
  destruct (Browser.stop_timeout _ _) as [b' tr].
  cbn [fst] in Hnone. cbn [result state trace store].
  repeat split.
  - exists b'. split; [apply lookup_insert_eq|exact Hnone].
  - eexists. reflexivity.
Qed.

(** ** Invalid transitions *)

(** C4.  For a registered browser: [start] while it is running is
    rejected with "browser already running"; [reload] and [stop] while
    it is not running are rejected with "browser still not running"
    (and the methods themselves throw "still not started"); in each
    case the registry, and so every field of every browser, is as
    before and the trace is empty: nothing is sent to the console. *)
Theorem invalid_transition_no_change (e : Env) (i : string)
    (browsers : gmap string Browser.t) (b : Browser.t) :
  browsers !! i = Some b ->
  (Browser.running b = true ->
     control e Start i browsers
     = mkOut browsers [] (Fail (Error "browser already running"))) /\
  (Browser.running b = false ->
     control e Reload i browsers
     = mkOut browsers [] (Fail (Error "browser still not running")) /\
     control e Stop i browsers
     = mkOut browsers [] (Fail (Error "browser still not running")) /\
     Browser.reload b = mkOut b [] (Fail (Error "still not started")) /\
     Browser.stop (onStop e) b
     = mkOut b [] (Fail (Error "still not started"))).
Proof.
  intros Hb. unfold control. rewrite (browsers_get_own _ _ _ Hb). split; intros Hr; rewrite Hr.
  - reflexivity.
  - unfold Browser.running in Hr.
    unfold Browser.reload, Browser.stop, Browser.stop_request.
    destruct (Browser.win b); [discriminate|]. repeat split.
Qed.

Lemma invalid_transition_no_change_witness :
  control env0 Start "a" registry0
  = mkOut registry0 [] (Fail (Error "browser already running")) /\
  control env0 Reload "b" registry0
  = mkOut registry0 [] (Fail (Error "browser still not running")) /\
  control env0 Stop "b" registry0
  = mkOut registry0 [] (Fail (Error "browser still not running")).
Proof.
  split.
  - apply (invalid_transition_no_change env0 "a" registry0 running_a);
      reflexivity.
  - destruct (invalid_transition_no_change env0 "b" registry0 stopped_b)
      as [_ H]; [reflexivity|].
    destruct (H eq_refl) as (H1 & H2 & _). split; assumption.
Defined.

(** ** Unknown ids *)

(** [mod] on an id that is not registered reads a property of
    [undefined]: a [TypeError], not the error of the dispatcher. *)
Lemma control_mod_absent (e : Env) (n : CfgPatch) (i : string)
    (browsers : gmap string Browser.t) :
  browsers !! i = None ->
  control e (Mod n) i browsers = mkOut browsers [] (Fail TypeError).
Proof.
  intros Hb. unfold control, browsers_get. rewrite Hb.
  destruct (_ || _); reflexivity.
Qed.

(** C9, the claim as stated fails: [del] on an id that is not in the
    registry does not fail with "invalid browser id", it is fulfilled. *)
Lemma del_absent_is_fulfilled :
  registry0 !! "x" = None /\
  result (control env0 Del "x" registry0) <> Fail (Error "invalid browser id") /\
  result (control env0 Del "x" registry0) = Ok.
Proof. vm_compute. repeat split. discriminate. Qed.

(** An id that names something the registry object inherits is
    rejected by every action that looks it up, with the [TypeError] of
    calling a method nothing has; nothing is changed or sent. *)
Lemma control_inherited (e : Env) (n : CfgPatch) (i : string)
    (browsers : gmap string Browser.t) :
  browsers_get browsers i = Inherited ->
  control e (Mod n) i browsers = mkOut browsers [] (Fail TypeError) /\
  control e Del i browsers = mkOut browsers [] (Fail TypeError) /\
  control e Start i browsers = mkOut browsers [] (Fail TypeError) /\
  control e Reload i browsers = mkOut browsers [] (Fail TypeError) /\
  control e Stop i browsers = mkOut browsers [] (Fail TypeError).
Proof. intros H. unfold control. rewrite H. repeat split. Qed.

(** C9, amended.  For an id for which [browsers[id]] is [undefined] (it
    is not in the registry and names nothing the registry object
    inherits), [start], [reload] and [stop] are rejected with "invalid
    browser id" and [del] is fulfilled; in all four cases the registry
    is as before and the trace is empty. *)
Theorem unknown_id_no_effect (e : Env) (i : string)
    (browsers : gmap string Browser.t) :
  browsers_get browsers i = Undefined ->
  control e Start i browsers
  = mkOut browsers [] (Fail (Error "invalid browser id")) /\
  control e Reload i browsers
  = mkOut browsers [] (Fail (Error "invalid browser id")) /\
  control e Stop i browsers
  = mkOut browsers [] (Fail (Error "invalid browser id")) /\
  control e Del i browsers = mkOut browsers [] Ok.
Proof.
  intros Hu. destruct (browsers_get_undefined _ _ Hu) as [Hb Hne].
  unfold control. rewrite Hu.
  rewrite (browsers_delete_plain browsers i Hne), (delete_id browsers i Hb).
  repeat split.
Qed.

Lemma unknown_id_no_effect_witness :
  control env0 Start "x" registry0
  = mkOut registry0 [] (Fail (Error "invalid browser id")) /\
  control env0 Reload "x" registry0
  = mkOut registry0 [] (Fail (Error "invalid browser id")) /\
  control env0 Stop "x" registry0
  = mkOut registry0 [] (Fail (Error "invalid browser id")) /\
  control env0 Del "x" registry0 = mkOut registry0 [] Ok.
Proof. apply (unknown_id_no_effect env0 "x" registry0). reflexivity. Defined.

(** ** Deleting a browser *)

(** C10, the claim as stated fails: [del] on a registered browser that
    is not running is fulfilled, not rejected, and the browser is gone
    from the registry. *)
Lemma del_stopped_removes :
  registry0 !! "b" = Some stopped_b /\
  Browser.running stopped_b = false /\
  result (control env0 Del "b" registry0) = Ok /\
  state (control env0 Del "b" registry0) !! "b" = None.
Proof. vm_compute. repeat split. Qed.

(** C10, amended.  For every id other than ["__proto__"] that is
    registered, or for which [browsers[id]] is [undefined], [del] is
    fulfilled and removes the id from the registry, leaving the other
    entries alone.  For a registered browser that is not running, the
    "still not started" of [stop ()] rejects the promise [del] drops
    and nothing else is emitted; for a running one [stop ()] has
    closed the window and set its timer when [del] returns. *)
Theorem del_always_removes (e : Env) (i : string)
    (browsers : gmap string Browser.t) :
  i <> "__proto__"%string ->
  browsers_get browsers i <> Inherited ->
  let o := control e Del i browsers in
  result o = Ok /\
  state o = delete i browsers /\
  state o !! i = None /\
  (forall j, j <> i -> state o !! j = browsers !! j) /\
  (forall b, browsers !! i = Some b -> Browser.running b = false ->
     trace o = [UnhandledRejection (Error "still not started")]) /\
  (forall b w, browsers !! i = Some b -> Browser.win b = Some w ->
     trace o = [WinClose w; SetTimeout 1000]).
Proof.
  intros Hne Hget. unfold control.
  rewrite (browsers_delete_plain browsers i Hne).
  destruct (browsers_get browsers i) as [b| |] eqn:Hg; [|contradiction|].
  - assert (browsers !! i = Some b) as Hb.
    { unfold browsers_get in Hg. destruct (browsers !! i); [congruence|].
      destruct (_ || _); discriminate. }
    cbn [result state trace]. repeat split.
    + apply lookup_delete_eq.
    + intros j Hj. apply lookup_delete_ne. congruence.
    + intros b' Hb' Hr. rewrite Hb in Hb'. injection Hb' as <-.
      unfold Browser.running in Hr. unfold Browser.stop_request.
      destruct (Browser.win b); [discriminate|]. reflexivity.
    + intros b' w Hb' Hw. rewrite Hb in Hb'. injection Hb' as <-.
      unfold Browser.stop_request. rewrite Hw. reflexivity.
  - destruct (browsers_get_undefined _ _ Hg) as [Hb _].
    cbn [result state trace]. repeat split.
    + apply lookup_delete_eq.
    + intros j Hj. apply lookup_delete_ne. congruence.
    + intros b' Hb'. congruence.
    + intros b' w Hb'. congruence.
Qed.

Lemma del_always_removes_witness :
  let o := control env0 Del "b" registry0 in
  result o = Ok /\
  state o = delete "b" registry0 /\
  state o !! "b" = None /\
  (forall j, j <> "b"%string -> state o !! j = registry0 !! j) /\
  (forall b, registry0 !! "b" = Some b -> Browser.running b = false ->
     trace o = [UnhandledRejection (Error "still not started")]) /\
  (forall b w, registry0 !! "b" = Some b -> Browser.win b = Some w ->
     trace o = [WinClose w; SetTimeout 1000]).
Proof.
  apply (del_always_removes env0 "b" registry0); discriminate.
Defined.

(** With the id ["__proto__"], [del] finds the prototype of the
    registry object and removes nothing: it is rejected while the
    prototype is [Object.prototype], and after an [add] with that id it
    stops the browser that [add] made the prototype and leaves it
    there. *)
Lemma del_prototype (e : Env) (browsers : gmap string Browser.t) :
  state (control e Del "__proto__" browsers) = browsers /\
  (browsers !! "__proto__"%string = None ->
   control e Del "__proto__" browsers = mkOut browsers [] (Fail TypeError)).
Proof.
  unfold control, browsers_get.
  destruct (browsers !! "__proto__"%string) eqn:Hp; cbn; split;
    try reflexivity; intros; congruence.
Qed.

(** ** Who assigns the skip threshold and the frame counter *)

(** C8, the claim as stated fails: reconfiguring a running browser to
    another target rate, or to the other capture mode, leaves the skip
    threshold at the value [start] gave it (1), although the new
    configuration would give 0 at [start], and leaves the frame
    counter at 1. *)
Lemma reconfigure_keeps_threshold_and_counter :
  Browser.running running_a1 = true /\
  Browser.ndiFramesToSkip running_a1 = num_of_Z 1 /\
  Browser.frames running_a1 = 1%nat /\
  (let b := fst (Browser.reconfigure rate_60 running_a1) in
   cfg_f (Browser.cfg b) = 60 /\
   Browser.ndiFramesToSkip b = num_of_Z 1 /\
   Browser.ndiFramesToSkip b
   <> framesToSkip (displayFrequency display60) (cfg_f (Browser.cfg b)) /\
   Browser.frames b <> 0%nat) /\
  (let b := fst (Browser.reconfigure to_offscreen running_a1) in
   cfg_D (Browser.cfg b) = false /\
   Browser.ndiFramesToSkip b = num_of_Z 1 /\
   Browser.ndiFramesToSkip b <> num_of_Z 0 /\
   Browser.frames b <> 0%nat).
Proof. vm_compute. repeat split; discriminate. Qed.

(** C8, amended.  [reconfigure], [update], [reload], [destroy] and both
    halves of [stop] change neither the skip threshold nor the frame
    counter.  The threshold is assigned by [start] alone, from the
    configuration in force at that moment: [framesToSkip] of the
    display frequency and the frame rate for a visible window, 0 for
    off-screen rendering with NDI; [start] does not touch the counter.
    The counter is assigned by [processFrame] alone, which does not
    touch the threshold. *)
Theorem threshold_and_counter_writers (b : Browser.t) :
  (forall n,
     Browser.ndiFramesToSkip (fst (Browser.reconfigure n b))
     = Browser.ndiFramesToSkip b /\
     Browser.frames (fst (Browser.reconfigure n b)) = Browser.frames b) /\
  (Browser.ndiFramesToSkip (fst (Browser.update b))
   = Browser.ndiFramesToSkip b /\
   Browser.frames (fst (Browser.update b)) = Browser.frames b) /\
  state (Browser.reload b) = b /\
  (Browser.ndiFramesToSkip (state (Browser.destroy b))
   = Browser.ndiFramesToSkip b /\
   Browser.frames (state (Browser.destroy b)) = Browser.frames b) /\
  state (Browser.stop_request b) = b /\
  (forall d,
     Browser.ndiFramesToSkip (fst (Browser.stop_timeout d b))
     = Browser.ndiFramesToSkip b /\
     Browser.frames (fst (Browser.stop_timeout d b)) = Browser.frames b) /\
  (forall image t0 t1,
     Browser.ndiFramesToSkip (state (Browser.processFrame image t0 t1 b))
     = Browser.ndiFramesToSkip b) /\
  (forall e,
     Browser.frames (state (Browser.start e b)) = Browser.frames b /\
     (result (Browser.start e b) = Ok ->
      Browser.ndiFramesToSkip (state (Browser.start e b))
      = if cfg_D (Browser.cfg b)
        then framesToSkip (displayFrequency e)
               (if cfg_N (Browser.cfg b) then cfg_f (Browser.cfg b)
                else displayFrequency e)
        else if cfg_N (Browser.cfg b) then num_of_Z 0
             else Browser.ndiFramesToSkip b)).
Proof.
  repeat split.
  - unfold Browser.reconfigure, Browser.update. cbn.
    destruct (Browser.win b); [|reflexivity].
    repeat (match goal with |- context [if ?c then _ else _] =>
                              destruct c end); reflexivity.
  - unfold Browser.reconfigure, Browser.update. cbn.
    destruct (Browser.win b); [|reflexivity].
    repeat (match goal with |- context [if ?c then _ else _] =>
                              destruct c end); reflexivity.
  - unfold Browser.update. destruct (Browser.win b); [|reflexivity].
    repeat (match goal with |- context [if ?c then _ else _] =>
                              destruct c end); reflexivity.
  - unfold Browser.update. destruct (Browser.win b); [|reflexivity].
    repeat (match goal with |- context [if ?c then _ else _] =>
                              destruct c end); reflexivity.
  - unfold Browser.reload. destruct (Browser.win b); reflexivity.
  - unfold Browser.destroy. destruct (Browser.win b); reflexivity.
  - unfold Browser.destroy. destruct (Browser.win b); reflexivity.
  - unfold Browser.stop_request. destruct (Browser.win b); reflexivity.
  - unfold Browser.stop_timeout. destruct (Browser.win b); reflexivity.
  - unfold Browser.stop_timeout. destruct (Browser.win b); reflexivity.
  - unfold Browser.processFrame.
    destruct (cfg_N (Browser.cfg b)), (cfg_P (Browser.cfg b)); cbn;
      try reflexivity;
      repeat (match goal with
              | |- context [if ?c then _ else _] => destruct c
              | |- context [match ?c with Some _ => _ | None => _ end] =>
                  destruct c
              | |- context [let '(_, _) := ?c in _] => destruct c
              end; cbn); reflexivity.
  - unfold Browser.start.
    destruct (cfg_N (Browser.cfg b)), (cfg_D (Browser.cfg b)),
      (cfg_P (Browser.cfg b)), (newSender e); reflexivity.
  - unfold Browser.start.
    destruct (cfg_N (Browser.cfg b)), (cfg_D (Browser.cfg b)),
      (cfg_P (Browser.cfg b)), (newSender e); cbn;
      try reflexivity; discriminate.
Qed.

(** ** The window of the moving statistics *)

Lemma shift_firstn (v : Q) (l : list Q) (n : nat) :
  length l = n -> (0 < n)%nat ->
  WeightedAverage.shift v l = firstn n (v :: l).
Proof.
  intros Hl Hn. unfold WeightedAverage.shift.
  destruct n as [|n]; [lia|]. cbn [firstn]. f_equal.
  rewrite List.removelast_firstn_len, Hl. reflexivity.
Qed.

Lemma firstn_app_firstn (n : nat) (a l : list Q) :
  firstn n (a ++ firstn n l) = firstn n (a ++ l).
Proof.
  rewrite !List.firstn_app, List.firstn_firstn.
  do 2 f_equal. lia.
Qed.

Lemma measure_fields v w :
  WeightedAverage.len (fst (WeightedAverage.measure v w))
  = WeightedAverage.len w /\
  WeightedAverage.val (fst (WeightedAverage.measure v w))
  = WeightedAverage.shift v (WeightedAverage.val w) /\
  WeightedAverage.every (fst (WeightedAverage.measure v w))
  = WeightedAverage.every w.
Proof. repeat split. Qed.

Lemma record_fields v w :
  WeightedAverage.len (fst (WeightedAverage.record v w))
  = WeightedAverage.len w /\
  WeightedAverage.val (fst (WeightedAverage.record v w))
  = WeightedAverage.shift v (WeightedAverage.val w).
Proof.
  unfold WeightedAverage.record.
  destruct (WeightedAverage.measure v w) as [w1 s] eqn:E.
  pose proof (measure_fields v w) as (Hl & Hv & _). rewrite E in Hl, Hv.
  cbn [fst] in Hl, Hv.
  destruct (num_lt _ _); cbn; auto.
Qed.

(** [record] hands the callback the sample [measure] computed. *)
Lemma record_emits v w s :
  snd (WeightedAverage.record v w) = Some s ->
  s = snd (WeightedAverage.measure v w).
Proof.
  unfold WeightedAverage.record.
  destruct (WeightedAverage.measure v w) as [w1 s1].
  destruct (num_lt _ _); cbn; congruence.
Qed.

Lemma feed_window (n : nat) (vs : list Q) : forall w,
  (0 < n)%nat ->
  WeightedAverage.len w = n ->
  length (WeightedAverage.val w) = n ->
  let w' := fst (WeightedAverage.feed vs w) in
  WeightedAverage.len w' = n /\
  WeightedAverage.val w' = firstn n (rev vs ++ WeightedAverage.val w).
Proof.
  induction vs as [|v vs IH]; intros w Hn Hl Hv; cbn [WeightedAverage.feed].
  - cbn. split; [assumption|].
    rewrite List.firstn_all2; [reflexivity|lia].
  - destruct (record_fields v w) as (Hl1 & Hv1).
    destruct (WeightedAverage.record v w) as [w1 o] eqn:E1.
    cbn [fst] in Hl1, Hv1.
    rewrite (shift_firstn v _ n Hv Hn) in Hv1.
    assert (length (WeightedAverage.val w1) = n) as Hlen1.
    { rewrite Hv1, List.length_firstn. cbn [length]. lia. }
    destruct (IH w1 Hn (eq_trans Hl1 Hl) Hlen1) as (Hl2 & Hv2).
    destruct (WeightedAverage.feed vs w1) as [w2 ss] eqn:E2.
    cbn [fst] in *. split; [assumption|].
    rewrite Hv2, Hv1, firstn_app_firstn. cbn [rev].
    rewrite <- List.app_assoc. reflexivity.
Qed.

(** After any inputs, a tracker of length [n >= 1] holds their
    [window]. *)
Lemma feed_constructor_window (n : nat) (ev : Q) (vs : list Q) :
  (0 < n)%nat ->
  let w := fst (WeightedAverage.feed vs (WeightedAverage.constructor n ev)) in
  WeightedAverage.len w = n /\ WeightedAverage.val w = window n vs.
Proof.
  intros Hn.
  apply (feed_window n vs (WeightedAverage.constructor n ev) Hn eq_refl).
  cbn. apply List.repeat_length.
Qed.

Lemma window_length (n : nat) (vs : list Q) : length (window n vs) = n.
Proof.
  unfold window. rewrite List.length_firstn, List.length_app, List.repeat_length.
  lia.
Qed.

(** Once [n] values were recorded the window is the last [n] of them. *)
Lemma window_full (n : nat) (vs : list Q) :
  (n <= length vs)%nat -> window n vs = firstn n (rev vs).
Proof.
  intros H. unfold window. rewrite List.firstn_app.
  replace (n - length (rev vs))%nat with 0%nat
    by (rewrite List.length_rev; lia).
  cbn [firstn]. apply List.app_nil_r.
Qed.

Lemma shift_window (n : nat) (vs : list Q) (v : Q) :
  (0 < n)%nat ->
  WeightedAverage.shift v (window n vs) = window n (vs ++ [v]).
Proof.
  intros Hn. rewrite (shift_firstn v _ n (window_length n vs) Hn).
  unfold window. rewrite List.rev_unit.
  change (v :: firstn n (rev vs ++ repeat 0%Q n))
    with ([v] ++ firstn n (rev vs ++ repeat 0%Q n)).
  rewrite firstn_app_firstn. reflexivity.
Qed.

(** ** The loop of [record] over a window that is all there *)

Lemma loop_scan (len : nat) (post : list Q) : forall pre a,
  WeightedAverage.loop len (pre ++ post) (length post) (length pre) a
  = scan len post (length pre) a.
Proof.
  induction post as [|x post IH]; intros pre a; [reflexivity|].
  cbn [length WeightedAverage.loop scan].
  rewrite List.nth_error_app2, Nat.sub_diag by lia. cbn [nth_error].
  change (pre ++ x :: post) with (pre ++ [x] ++ post).
  rewrite List.app_assoc.
  replace (S (length pre)) with (length (pre ++ [x]))
    by (rewrite List.length_app; cbn; lia).
  apply IH.
Qed.

Lemma loop_whole (vs : list Q) :
  WeightedAverage.loop (length vs) vs (length vs) 0 WeightedAverage.acc0
  = scan (length vs) vs 0 WeightedAverage.acc0.
Proof. exact (loop_scan (length vs) vs [] WeightedAverage.acc0). Qed.

Lemma body_greatest x k a seen :
  greatest (WeightedAverage.a_max a) seen ->
  greatest (WeightedAverage.a_max (WeightedAverage.body (Some x) k a))
           (x :: seen).
Proof.
  unfold WeightedAverage.body; cbn [WeightedAverage.a_max].
  destruct (WeightedAverage.a_max a) as [| |m|]; cbn; try tauto.
  - intros ->. split; [left; reflexivity|].
    constructor; [apply Qle_refl|constructor].
  - intros [Hin Hall]. destruct (Qlt_bool m x) eqn:E; cbn.
    + apply Qlt_bool_true in E. split; [left; reflexivity|].
      constructor; [apply Qle_refl|].
      eapply List.Forall_impl; [|exact Hall]. cbn. intros y Hy.
      apply Qle_trans with m; [assumption|apply Qlt_le_weak; assumption].
    + apply Qlt_bool_false in E. split; [right; assumption|].
      constructor; assumption.
Qed.

Lemma body_least x k a seen :
  least (WeightedAverage.a_min a) seen ->
  least (WeightedAverage.a_min (WeightedAverage.body (Some x) k a))
        (x :: seen).
Proof.
  unfold WeightedAverage.body; cbn [WeightedAverage.a_min].
  destruct (WeightedAverage.a_min a) as [| |m|]; cbn; try tauto.
  - intros [Hin Hall]. destruct (Qlt_bool x m) eqn:E; cbn.
    + apply Qlt_bool_true in E. split; [left; reflexivity|].
      constructor; [apply Qle_refl|].
      eapply List.Forall_impl; [|exact Hall]. cbn. intros y Hy.
      apply Qle_trans with m; [apply Qlt_le_weak; assumption|assumption].
    + apply Qlt_bool_false in E. split; [right; assumption|].
      constructor; assumption.
  - intros ->. split; [left; reflexivity|].
    constructor; [apply Qle_refl|constructor].
Qed.

Lemma scan_bounds (len : nat) (l : list Q) : forall i a seen,
  greatest (WeightedAverage.a_max a) seen ->
  least (WeightedAverage.a_min a) seen ->
  greatest (WeightedAverage.a_max (scan len l i a)) (rev l ++ seen) /\
  least (WeightedAverage.a_min (scan len l i a)) (rev l ++ seen).
Proof.
  induction l as [|x l IH]; intros i a seen HM Hm; [split; assumption|].
  cbn [scan rev]. rewrite <- List.app_assoc. cbn [app].
  apply IH; [apply body_greatest|apply body_least]; assumption.
Qed.

(** Over a non-empty window the loop ends with the greatest and the
    least of its values. *)
Lemma scan_window_bounds (l : list Q) :
  l <> [] ->
  let a := scan (length l) l 0 WeightedAverage.acc0 in
  exists M m,
    WeightedAverage.a_max a = Fin M /\ WeightedAverage.a_min a = Fin m /\
    In M l /\ In m l /\ Forall (fun x => (m <= x <= M)%Q) l.
Proof.
  intros Hne.
  destruct (scan_bounds (length l) l 0 WeightedAverage.acc0 [])
    as [HM Hm]; [reflexivity|reflexivity|].
  rewrite List.app_nil_r in HM, Hm. cbv zeta.
  destruct (WeightedAverage.a_max (scan _ l 0 _)) as [| |M|]; cbn in HM;
    try contradiction;
    [apply (f_equal (@rev Q)) in HM; rewrite List.rev_involutive in HM;
     contradiction|].
  destruct (WeightedAverage.a_min (scan _ l 0 _)) as [| |m|]; cbn in Hm;
    try contradiction;
    [|apply (f_equal (@rev Q)) in Hm; rewrite List.rev_involutive in Hm;
      contradiction].
  destruct HM as [HMin HMall], Hm as [Hmin Hmall].
  exists M, m. repeat split; try (apply List.in_rev; assumption).
  apply List.Forall_forall. intros x Hx. apply List.in_rev in Hx.
  rewrite List.Forall_forall in HMall, Hmall. split; auto.
Qed.

Lemma In_firstn_inv (n : nat) (l : list Q) (x : Q) :
  In x (firstn n l) -> In x l.
Proof.
  intros H. rewrite <- (List.firstn_skipn n l). apply in_or_app. left.
  exact H.
Qed.

(** ** The samples of the moving statistics *)

Example wa_20_5 :
  snd (WeightedAverage.feed (repeat 5%Q 7) (WeightedAverage.constructor 20 5))
  = [ {| avg := Fin (595 # 210); smin := Fin 0; smax := Fin 5;
         tmin := Fin 5; tmax := Fin 5 |} ].
Proof. vm_compute. reflexivity. Qed.

(** C5 (the code departs from the claim).  After the values 5, 3, 4, 4,
    4, 4, 4 went into the tracker of length 20 calling back after every
    5, the one sample emitted carries the all-time minimum 5, although
    3 was recorded: [this.min] is compared with, and set to, the
    maximum of the window. *)
Theorem running_min_follows_window_max :
  let inputs := [5; 3; 4; 4; 4; 4; 4]%Q in
  exists s,
    snd (WeightedAverage.feed inputs usages) = [s] /\
    tmin s = Fin 5 /\ tmax s = Fin 5 /\
    smin s = Fin 0 /\ smax s = Fin 5 /\
    In 3%Q inputs /\ num_lt (Fin 3) (tmin s) = true.
Proof.
  eexists. vm_compute. repeat split; auto 10.
Qed.

(** C6, the claim as stated fails: with fewer values recorded than the
    window is long, the minimum of an emitted sample is the 0 the
    constructor put in the window, below every value recorded. *)
Lemma window_min_is_padding :
  let inputs := repeat 5%Q 7 in
  exists s,
    snd (WeightedAverage.feed inputs usages) = [s] /\
    smin s = Fin 0 /\
    Forall (fun x => num_lt (smin s) (Fin x) = true) inputs /\
    ~ In 0%Q inputs.
Proof.
  eexists. vm_compute. repeat split.
  - repeat constructor.
  - intros H. repeat (destruct H as [H|H]; [discriminate H|]). exact H.
Qed.

(** C6, amended.  For a tracker of length [n >= 1], the maximum and the
    minimum of every emitted sample are values of the window, and
    bound every value of the window from above and from below; the
    window is the last [n] recorded inputs, newest first, filled up
    with zeros while fewer than [n] values were recorded.  Once [n]
    values were recorded both bounds are among the last [n] recorded
    inputs. *)
Theorem window_bounds_attained (n : nat) (ev : Q) (vs : list Q) (v : Q)
    (s : StatSample) :
  (0 < n)%nat ->
  snd (WeightedAverage.record v
         (fst (WeightedAverage.feed vs (WeightedAverage.constructor n ev))))
  = Some s ->
  let W := window n (vs ++ [v]) in
  exists M m,
    smax s = Fin M /\ smin s = Fin m /\
    In M W /\ In m W /\
    Forall (fun x => (m <= x <= M)%Q) W /\
    ((n <= length (vs ++ [v]))%nat ->
     W = firstn n (rev (vs ++ [v])) /\
     In M (rev (vs ++ [v])) /\ In m (rev (vs ++ [v]))).
Proof.
  intros Hn Hs W.
  apply record_emits in Hs.
  destruct (feed_constructor_window n ev vs Hn) as (Hl & Hv).
  set (w := fst (WeightedAverage.feed vs (WeightedAverage.constructor n ev)))
    in *.
  assert (W <> []) as Hne.
  { intros H0. pose proof (window_length n (vs ++ [v])) as HW.
    fold W in HW. rewrite H0 in HW. cbn in HW. lia. }
  destruct (scan_window_bounds W Hne) as (M & m & HM & Hm & HMin & Hmin & Hb).
  assert (WeightedAverage.loop (WeightedAverage.len w)
            (WeightedAverage.shift v (WeightedAverage.val w))
            (WeightedAverage.len w) 0 WeightedAverage.acc0
          = scan (length W) W 0 WeightedAverage.acc0) as Hloop.
  { rewrite Hl, Hv, (shift_window n vs v Hn). fold W.
    pose proof (loop_whole W) as Hw.
    rewrite (window_length n (vs ++ [v]) : length W = n) in Hw |- *.
    exact Hw. }
  exists M, m. subst s. unfold WeightedAverage.measure.
  cbn [snd smax smin]. rewrite Hloop.
  repeat split; try assumption.
  - apply window_full. assumption.
  - unfold W in HMin. rewrite (window_full n (vs ++ [v]) H) in HMin.
    eapply In_firstn_inv; eassumption.
  - unfold W in Hmin. rewrite (window_full n (vs ++ [v]) H) in Hmin.
    eapply In_firstn_inv; eassumption.
Qed.

Lemma window_bounds_attained_witness :
  let s := {| avg := Fin (13 # 3); smin := Fin 3; smax := Fin 7;
              tmin := Fin 7; tmax := Fin 7 |} in
  let W := window 2 ([7%Q] ++ [3%Q]) in
  exists M m,
    smax s = Fin M /\ smin s = Fin m /\
    In M W /\ In m W /\
    Forall (fun x => (m <= x <= M)%Q) W /\
    ((2 <= length ([7%Q] ++ [3%Q]))%nat ->
     W = firstn 2 (rev ([7%Q] ++ [3%Q])) /\
     In M (rev ([7%Q] ++ [3%Q])) /\ In m (rev ([7%Q] ++ [3%Q]))).
Proof.
  apply (window_bounds_attained 2 0 [7%Q] 3).
  - lia.
  - vm_compute. reflexivity.
Defined.

(** ** The triangular weighting *)

Lemma tri_closed (m : nat) : 2 * tri m = Z.of_nat m * (Z.of_nat m + 1).
Proof. induction m as [|m IH]; [reflexivity|]. cbn [tri]. nia. Qed.

Lemma sq_closed (m : nat) : 3 * sq m = tri m * (2 * Z.of_nat m + 1).
Proof.
  induction m as [|m IH]; [reflexivity|].
  pose proof (tri_closed m). cbn [sq tri]. nia.
Qed.

Lemma tri_pos (m : nat) : (0 < m)%nat -> 0 < tri m.
Proof. intros H. pose proof (tri_closed m). nia. Qed.

Lemma rev_ramp (n : nat) : rev (ramp n) = down n.
Proof.
  induction n as [|n IH]; [reflexivity|].
  unfold ramp in *. rewrite List.seq_S, List.map_app, List.rev_app_distr.
  cbn [map rev app Nat.add]. rewrite IH. reflexivity.
Qed.

Lemma down_length (n : nat) : length (down n) = n.
Proof. induction n as [|n IH]; cbn; congruence. Qed.

Lemma window_ramp (n : nat) : window n (ramp n) = down n.
Proof.
  unfold window. rewrite rev_ramp, List.firstn_app, down_length, Nat.sub_diag.
  cbn [firstn]. rewrite List.app_nil_r. apply List.firstn_all2.
  rewrite down_length. lia.
Qed.

(** Over the window [m], ..., 1 the loop adds the squares to the sum
    and the weights to the divisor. *)
Lemma scan_down (len : nat) (m : nat) : forall i a q,
  (i + m = len)%nat ->
  WeightedAverage.a_avg a = Fin q ->
  exists q',
    WeightedAverage.a_avg (scan len (down m) i a) = Fin q' /\
    (q' == q + inject_Z (sq m))%Q /\
    (WeightedAverage.a_div (scan len (down m) i a)
     == WeightedAverage.a_div a + inject_Z (tri m))%Q.
Proof.
  induction m as [|m IH]; intros i a q Hi Ha.
  - exists q. cbn. rewrite Ha. repeat split; ring.
  - cbn [down scan].
    replace (len - i)%nat with (S m) by lia.
    destruct (IH (S i)
                (WeightedAverage.body (Some (inject_Z (Z.of_nat (S m)))) (S m) a)
                (q + inject_Z (Z.of_nat (S m)) * inject_Z (Z.of_nat (S m)))%Q)
      as (q' & Hq' & Hsum & Hdiv); [lia|cbn; rewrite Ha; reflexivity|].
    exists q'. split; [exact Hq'|]. split.
    + rewrite Hsum. cbn [sq]. rewrite inject_Z_plus, inject_Z_mult. ring.
    + rewrite Hdiv. cbn [WeightedAverage.body WeightedAverage.a_div tri].
      rewrite inject_Z_plus. ring.
Qed.

(** C7, the claim as stated fails: for the window length 1, recording
    the value 1 gives the average 1, which is the unweighted mean
    (1 + 1) / 2 and not above it, both in the sample [record] computes
    and in the one it emits. *)
Lemma single_value_average_is_mean :
  ramp 1 = [1%Q] /\
  avg (snd (WeightedAverage.measure 1
              (WeightedAverage.constructor 1 (1 # 2)))) = Fin 1 /\
  (exists s,
     snd (WeightedAverage.record 1 (WeightedAverage.constructor 1 (-1)))
     = Some s /\ avg s = Fin 1) /\
  ~ ((inject_Z (Z.of_nat 1) + 1) / 2 < 1)%Q.
Proof.
  split; [reflexivity|]. split; [vm_compute; reflexivity|]. split.
  - eexists. vm_compute. split; reflexivity.
  - vm_compute. intros H. discriminate H.
Qed.

(** C7, amended.  For every window length [n >= 2], when the values 1,
    2, ..., [n] go in order into a freshly constructed tracker, the
    weighted average computed by the last [record] (and carried by its
    sample, if it emits one) is strictly above the unweighted mean
    [(n + 1) / 2]. *)
Theorem ramp_average_above_mean (n : nat) (ev : Q) (vs : list Q) (v : Q) :
  (2 <= n)%nat ->
  ramp n = vs ++ [v] ->
  let w := fst (WeightedAverage.feed vs (WeightedAverage.constructor n ev)) in
  exists q,
    avg (snd (WeightedAverage.measure v w)) = Fin q /\
    ((inject_Z (Z.of_nat n) + 1) / 2 < q)%Q /\
    (forall s, snd (WeightedAverage.record v w) = Some s -> avg s = Fin q).
Proof.
  intros Hn Hr w.
  assert (0 < n)%nat as Hn0 by lia.
  destruct (feed_constructor_window n ev vs Hn0) as (Hl & Hv). fold w in Hl, Hv.
  assert (WeightedAverage.loop (WeightedAverage.len w)
            (WeightedAverage.shift v (WeightedAverage.val w))
            (WeightedAverage.len w) 0 WeightedAverage.acc0
          = scan n (down n) 0 WeightedAverage.acc0) as Hloop.
  { rewrite Hl, Hv, (shift_window n vs v Hn0), <- Hr, window_ramp.
    pose proof (loop_whole (down n)) as Hw. rewrite down_length in Hw.
    exact Hw. }
  destruct (scan_down n n 0 WeightedAverage.acc0 0%Q)
    as (q' & Hq' & Hsum & Hdiv); [lia|reflexivity|].
  cbn [WeightedAverage.acc0 WeightedAverage.a_div] in Hdiv.
  set (a := scan n (down n) 0 WeightedAverage.acc0) in *.
  assert (WeightedAverage.a_div a == inject_Z (tri n))%Q as Hd
      by (rewrite Hdiv; ring).
  assert (q' == inject_Z (sq n))%Q as Hs by (rewrite Hsum; ring).
  pose proof (tri_pos n Hn0) as Hpos.
  assert (0 < WeightedAverage.a_div a)%Q as Hdpos.
  { rewrite Hd. change 0%Q with (inject_Z 0). rewrite <- Zlt_Qlt. exact Hpos. }
  assert (avg (snd (WeightedAverage.measure v w))
          = Fin (q' / WeightedAverage.a_div a)) as Havg.
  { unfold WeightedAverage.measure. cbn [snd avg]. rewrite Hloop. fold a.
    rewrite Hq'. cbn [num_div].
    destruct (Qeq_bool (WeightedAverage.a_div a) 0) eqn:E; [|reflexivity].
    apply Qeq_bool_iff in E. rewrite E in Hdpos.
    exfalso. exact (Qlt_irrefl _ Hdpos). }
  exists (q' / WeightedAverage.a_div a)%Q. split; [exact Havg|]. split.
  - apply Qlt_shift_div_l; [exact Hdpos|].
    rewrite Hd, Hs.
    assert ((inject_Z (Z.of_nat n) + 1) / 2 * inject_Z (tri n)
            == (inject_Z (Z.of_nat n) + 1) * inject_Z (tri n) / 2)%Q as ->
        by (field; discriminate).
    apply Qlt_shift_div_r; [reflexivity|].
    change 1%Q with (inject_Z 1). change 2%Q with (inject_Z 2).
    rewrite <- inject_Z_plus, <- !inject_Z_mult, <- Zlt_Qlt.
    pose proof (sq_closed n) as Hsq. pose proof (tri_closed n) as Htri.
    nia.
  - intros s Hsome. apply record_emits in Hsome. subst s. exact Havg.
Qed.

Lemma ramp_average_above_mean_witness :
  let w := fst (WeightedAverage.feed [1%Q] (WeightedAverage.constructor 2 0)) in
  exists q,
    avg (snd (WeightedAverage.measure 2 w)) = Fin q /\
    ((inject_Z (Z.of_nat 2) + 1) / 2 < q)%Q /\
    (forall s, snd (WeightedAverage.record 2 w) = Some s -> avg s = Fin q).
Proof.
  apply (ramp_average_above_mean 2 0 [1%Q] 2).
  - lia.
  - reflexivity.
Defined.

(** * Further properties *)

(** ** When [record] calls back *)

Lemma ticks_nth (k : nat) (n : nat) : forall j i,
  (j <= S k)%nat -> (i < n)%nat ->
  nth i (ticks k j n) false = ((j + i + 1) mod (k + 2) =? 0)%nat.
Proof.
  induction n as [|n IH]; intros j i Hj Hi; [lia|].
  cbn [ticks]. unfold next_frames. destruct i as [|i]; cbn [nth].
  - destruct (Nat.ltb_spec k j) as [Hlt|Hge].
    + replace (j + 0 + 1)%nat with (k + 2)%nat by lia.
      rewrite Nat.Div0.mod_same. reflexivity.
    + rewrite Nat.mod_small by lia. symmetry. apply Nat.eqb_neq. lia.
  - destruct (Nat.ltb_spec k j) as [Hlt|Hge].
    + rewrite IH by lia.
      replace (j + S i + 1)%nat with (0 + i + 1 + 1 * (k + 2))%nat by lia.
      rewrite Nat.Div0.mod_add. reflexivity.
    + rewrite IH by lia. do 2 f_equal. lia.
Qed.

(** [every < cnt] for a count is decided by the integer part of
    [every]. *)
Lemma every_lt_count (ev : Q) (c : nat) :
  (0 <= ev)%Q ->
  num_lt (Fin ev) (num_of_nat c) = (Z.to_nat (Qfloor ev) <? c)%nat.
Proof.
  intros Hev. unfold num_of_nat. cbn [num_lt].
  assert (0 <= Qfloor ev) as Hfl.
  { change 0 with (Qfloor 0). apply Qfloor_resp_le. exact Hev. }
  destruct (Nat.ltb_spec (Z.to_nat (Qfloor ev)) c) as [Hlt|Hge].
  - apply Qlt_bool_true.
    apply Qlt_le_trans with (inject_Z (Qfloor ev + 1)); [apply Qlt_floor|].
    rewrite <- Zle_Qle. lia.
  - apply Qlt_bool_false.
    apply Qle_trans with (inject_Z (Qfloor ev)); [|apply Qfloor_le].
    rewrite <- Zle_Qle. lia.
Qed.

Lemma record_counter (v : Q) (w : WeightedAverage.t) :
  let o := WeightedAverage.record v w in
  let fire := num_lt (Fin (WeightedAverage.every w))
                     (num_of_nat (WeightedAverage.cnt w)) in
  WeightedAverage.every (fst o) = WeightedAverage.every w /\
  match snd o with Some _ => true | None => false end = fire /\
  WeightedAverage.cnt (fst o)
  = if fire then 0%nat else S (WeightedAverage.cnt w).
Proof.
  unfold WeightedAverage.record, WeightedAverage.measure.
  cbn [WeightedAverage.every WeightedAverage.cnt].
  destruct (num_lt (Fin (WeightedAverage.every w))
                   (num_of_nat (WeightedAverage.cnt w)));
    cbn; repeat split.
Qed.

Lemma emissions_ticks (vs : list Q) : forall w,
  (0 <= WeightedAverage.every w)%Q ->
  emissions vs w
  = ticks (Z.to_nat (Qfloor (WeightedAverage.every w)))
          (WeightedAverage.cnt w) (length vs).
Proof.
  induction vs as [|v vs IH]; intros w Hev; [reflexivity|].
  cbn [emissions ticks length].
  destruct (record_counter v w) as (He & Hf & Hc). cbv zeta in *.
  rewrite Hf, (every_lt_count _ _ Hev). f_equal.
  rewrite IH by (rewrite He; exact Hev).
  rewrite He, Hc, (every_lt_count _ _ Hev). reflexivity.
Qed.

(** X1.  A tracker constructed with [every >= 0] calls back on the
    calls number K, 2K, 3K, ... and on no other, where K is the integer
    part of [every] plus 2; the window length and the values recorded
    play no part. *)
Theorem record_emission_period (len : nat) (ev : Q) (vs : list Q) (i : nat) :
  (0 <= ev)%Q ->
  (i < length vs)%nat ->
  nth i (emissions vs (WeightedAverage.constructor len ev)) false
  = ((i + 1) mod (Z.to_nat (Qfloor ev) + 2) =? 0)%nat.
Proof.
  intros Hev Hi.
  rewrite (emissions_ticks vs (WeightedAverage.constructor len ev) Hev).
  cbn [WeightedAverage.every WeightedAverage.cnt WeightedAverage.constructor].
  rewrite ticks_nth by lia. reflexivity.
Qed.

Lemma record_emission_period_witness :
  nth 6 (emissions (repeat 5%Q 7) (WeightedAverage.constructor 20 5)) false
  = ((6 + 1) mod (Z.to_nat (Qfloor 5) + 2) =? 0)%nat.
Proof.
  apply (record_emission_period 20 5 (repeat 5%Q 7) 6).
  - discriminate.
  - cbn. lia.
Defined.

(** ** The window as an invariant *)

(** X2.  A tracker of length [n >= 1] always stores exactly [n] values:
    after any inputs, the last [n] of them, newest first, filled up
    with zeros while fewer than [n] were recorded. *)
Theorem window_invariant (n : nat) (ev : Q) (vs : list Q) :
  (0 < n)%nat ->
  let w := fst (WeightedAverage.feed vs (WeightedAverage.constructor n ev)) in
  length (WeightedAverage.val w) = n /\
  WeightedAverage.len w = n /\
  WeightedAverage.val w = firstn n (rev vs ++ repeat 0%Q n) /\
  ((n <= length vs)%nat -> WeightedAverage.val w = firstn n (rev vs)).
Proof.
  intros Hn w.
  destruct (feed_constructor_window n ev vs Hn) as (Hl & Hv). fold w in Hl, Hv.
  repeat split; try assumption.
  - rewrite Hv. apply window_length.
  - intros Hfull. rewrite Hv. apply window_full. exact Hfull.
Qed.

Lemma window_invariant_witness :
  let w := fst (WeightedAverage.feed [7; 3; 4]%Q
                  (WeightedAverage.constructor 2 0)) in
  length (WeightedAverage.val w) = 2%nat /\
  WeightedAverage.len w = 2%nat /\
  WeightedAverage.val w = firstn 2 (rev [7; 3; 4]%Q ++ repeat 0%Q 2) /\
  ((2 <= length [7; 3; 4]%Q)%nat ->
   WeightedAverage.val w = firstn 2 (rev [7; 3; 4]%Q)).
Proof. apply (window_invariant 2 0 [7; 3; 4]%Q). lia. Defined.

(** ** The all-time maximum *)

Lemma shift_length (n : nat) (v : Q) (l : list Q) :
  (0 < n)%nat -> length l = n ->
  length (WeightedAverage.shift v l) = n.
Proof.
  intros Hn Hl. rewrite (shift_firstn v l n Hl Hn), List.length_firstn.
  cbn [length]. lia.
Qed.

(** One [measure] on a tracker whose window is all there: the new
    all-time maximum bounds the new value, the window maximum and
    whatever the old one bounded. *)
Lemma measure_upper (n : nat) (v : Q) (w : WeightedAverage.t) (seen : list Q) :
  (0 < n)%nat ->
  WeightedAverage.len w = n ->
  length (WeightedAverage.val w) = n ->
  upper (WeightedAverage.max w) seen ->
  let o := WeightedAverage.measure v w in
  upper (WeightedAverage.max (fst o)) (v :: seen) /\
  tmax (snd o) = WeightedAverage.max (fst o) /\
  num_lt (tmax (snd o)) (smax (snd o)) = false.
Proof.
  intros Hn Hl Hv Hup.
  set (W := WeightedAverage.shift v (WeightedAverage.val w)).
  pose proof (shift_length n v _ Hn Hv : length W = n) as HW.
  assert (W <> []) as Hne by (intros H0; rewrite H0 in HW; cbn in HW; lia).
  destruct (scan_window_bounds W Hne) as (M & m & HM & _ & _ & _ & Hb).
  assert (v <= M)%Q as HvM.
  { rewrite List.Forall_forall in Hb. apply (Hb v). left. reflexivity. }
  pose proof (loop_whole W) as Hloop. rewrite HW in Hloop, HM.
  unfold WeightedAverage.measure. fold W. rewrite Hl, Hloop, HM.
  cbn [fst snd WeightedAverage.max tmax smax].
  destruct (WeightedAverage.max w) as [| |t|] eqn:Et; cbn in Hup;
    try contradiction.
  - subst seen. cbn. repeat split.
    + constructor; [exact HvM|constructor].
    + apply Qlt_bool_false. apply Qle_refl.
  - cbn [num_lt]. destruct (Qlt_bool t M) eqn:E; cbn [upper num_lt].
    + apply Qlt_bool_true in E. repeat split.
      * constructor; [exact HvM|].
        eapply List.Forall_impl; [|exact Hup]. cbn. intros y Hy.
        apply Qle_trans with t; [exact Hy|apply Qlt_le_weak; exact E].
      * apply Qlt_bool_false. apply Qle_refl.
    + repeat split; [|exact E].
      apply Qlt_bool_false in E.
      constructor; [apply Qle_trans with M; assumption|exact Hup].
Qed.

Lemma record_max (v : Q) (w : WeightedAverage.t) :
  WeightedAverage.max (fst (WeightedAverage.record v w))
  = WeightedAverage.max (fst (WeightedAverage.measure v w)).
Proof.
  unfold WeightedAverage.record.
  destruct (WeightedAverage.measure v w) as [w1 s1].
  destruct (num_lt _ _); reflexivity.
Qed.

Lemma feed_upper (n : nat) (vs : list Q) : forall w seen,
  (0 < n)%nat ->
  WeightedAverage.len w = n ->
  length (WeightedAverage.val w) = n ->
  upper (WeightedAverage.max w) seen ->
  upper (WeightedAverage.max (fst (WeightedAverage.feed vs w)))
        (rev vs ++ seen).
Proof.
  induction vs as [|v vs IH]; intros w seen Hn Hl Hv Hup; [exact Hup|].
  cbn [WeightedAverage.feed].
  destruct (record_fields v w) as (Hl1 & Hv1).
  pose proof (record_max v w) as Hmax.
  destruct (measure_upper n v w seen Hn Hl Hv Hup) as (Hup1 & _).
  destruct (WeightedAverage.record v w) as [w1 o] eqn:E1.
  cbn [fst] in Hl1, Hv1, Hmax.
  specialize (IH w1 (v :: seen) Hn (eq_trans Hl1 Hl)).
  destruct (WeightedAverage.feed vs w1) as [w2 ss] eqn:E2.
  cbn [fst] in *. cbn [rev]. rewrite <- List.app_assoc. cbn [app].
  apply IH.
  - rewrite Hv1. apply shift_length; assumption.
  - rewrite Hmax. exact Hup1.
Qed.

(** X4.  For a tracker of length [n >= 1], the all-time maximum of an
    emitted sample is a number that no value recorded so far exceeds,
    the one just recorded included, and it is not below the maximum of
    the same sample. *)
Theorem running_max_bounds_inputs (n : nat) (ev : Q) (vs : list Q) (v : Q)
    (s : StatSample) :
  (0 < n)%nat ->
  snd (WeightedAverage.record v
         (fst (WeightedAverage.feed vs (WeightedAverage.constructor n ev))))
  = Some s ->
  exists T,
    tmax s = Fin T /\
    Forall (fun x => (x <= T)%Q) (vs ++ [v]) /\
    num_lt (tmax s) (smax s) = false.
Proof.
  intros Hn Hs. apply record_emits in Hs.
  set (w := fst (WeightedAverage.feed vs (WeightedAverage.constructor n ev)))
    in *.
  destruct (feed_constructor_window n ev vs Hn) as (Hl & Hv). fold w in Hl, Hv.
  assert (upper (WeightedAverage.max w) (rev vs)) as Hup.
  { pose proof (feed_upper n vs (WeightedAverage.constructor n ev) [] Hn
                  eq_refl (List.repeat_length _ _) eq_refl) as H.
    rewrite List.app_nil_r in H. exact H. }
  assert (length (WeightedAverage.val w) = n) as Hlen
      by (rewrite Hv; apply window_length).
  destruct (measure_upper n v w (rev vs) Hn Hl Hlen Hup) as (Hup' & Ht & Hle).
  rewrite <- Hs in Ht, Hle. rewrite <- Ht in Hup'.
  destruct (tmax s) as [| |T|] eqn:ET; cbn in Hup';
    try contradiction; try discriminate.
  exists T. repeat split; [|exact Hle].
  apply List.Forall_forall. intros x Hx.
  rewrite List.Forall_forall in Hup'. apply Hup'.
  apply in_app_or in Hx. destruct Hx as [Hx|[<-|[]]].
  - right. apply List.in_rev in Hx. exact Hx.
  - left. reflexivity.
Qed.

Lemma running_max_bounds_inputs_witness :
  exists T,
    tmax {| avg := Fin (13 # 3); smin := Fin 3; smax := Fin 7;
            tmin := Fin 7; tmax := Fin 7 |} = Fin T /\
    Forall (fun x => (x <= T)%Q) ([7%Q] ++ [3%Q]) /\
    num_lt (tmax {| avg := Fin (13 # 3); smin := Fin 3; smax := Fin 7;
                    tmin := Fin 7; tmax := Fin 7 |})
           (smax {| avg := Fin (13 # 3); smin := Fin 3; smax := Fin 7;
                    tmin := Fin 7; tmax := Fin 7 |}) = false.
Proof.
  apply (running_max_bounds_inputs 2 0 [7%Q] 3).
  - lia.
  - vm_compute. reflexivity.
Defined.

(** ** A tracker of length 0 *)

Lemma measure_empty_window (v : Q) (w : WeightedAverage.t) :
  WeightedAverage.len w = 0%nat ->
  WeightedAverage.max w = NegInf ->
  WeightedAverage.min w = PosInf \/ WeightedAverage.min w = NegInf ->
  WeightedAverage.measure v w
  = (WeightedAverage.mk 0 (WeightedAverage.every w)
       (WeightedAverage.shift v (WeightedAverage.val w))
       (WeightedAverage.cnt w) NegInf NegInf,
     {| avg := NaN; smin := PosInf; smax := NegInf;
        tmin := NegInf; tmax := NegInf |}).
Proof.
  intros Hl Hmax Hmin. unfold WeightedAverage.measure.
  rewrite Hl, Hmax. cbn [WeightedAverage.loop].
  destruct Hmin as [-> | ->]; reflexivity.
Qed.

Lemma feed_empty_window (vs : list Q) : forall w s,
  WeightedAverage.len w = 0%nat ->
  WeightedAverage.max w = NegInf ->
  WeightedAverage.min w = PosInf \/ WeightedAverage.min w = NegInf ->
  In s (snd (WeightedAverage.feed vs w)) ->
  s = {| avg := NaN; smin := PosInf; smax := NegInf;
         tmin := NegInf; tmax := NegInf |}.
Proof.
  induction vs as [|v vs IH]; intros w s Hl Hmax Hmin Hin; [destruct Hin|].
  cbn [WeightedAverage.feed] in Hin.
  unfold WeightedAverage.record in Hin.
  rewrite (measure_empty_window v w Hl Hmax Hmin) in Hin.
  cbn [WeightedAverage.every WeightedAverage.cnt] in Hin.
  destruct (num_lt _ _);
    match type of Hin with
    | context [WeightedAverage.feed vs ?w1] =>
        specialize (IH w1 s eq_refl eq_refl (or_intror eq_refl));
        destruct (WeightedAverage.feed vs w1) as [w2 ss]
    end; cbn [snd] in *.
  - destruct Hin as [<-|Hin]; [reflexivity|auto].
  - auto.
Qed.

(** X5.  A tracker of length 0 (a frame rate of 0) never looks at a
    value: whatever is recorded, every sample it emits has the average
    NaN, the window minimum plus infinity, the window maximum minus
    infinity, and minus infinity as both all-time bounds. *)
Theorem empty_window_samples (ev : Q) (vs : list Q) :
  Forall (fun s => s = {| avg := NaN; smin := PosInf; smax := NegInf;
                          tmin := NegInf; tmax := NegInf |})
         (snd (WeightedAverage.feed vs (WeightedAverage.constructor 0 ev))).
Proof.
  apply List.Forall_forall. intros s Hs. revert Hs.
  apply feed_empty_window; [reflexivity|reflexivity|left; reflexivity].
Qed.

(** Such a tracker does emit: with [every = 0], on every second call. *)
Example empty_window_emits :
  length (snd (WeightedAverage.feed [3; 4; 5; 6]%Q
                 (WeightedAverage.constructor 0 0))) = 2%nat.
Proof. vm_compute. reflexivity. Qed.

(** ** The skip threshold [start] computes *)

(** X6.  For a positive frame rate and a positive display
    frequency the threshold is the integer quotient of the two, less
    one, and 0 when the frame rate exceeds the display frequency. *)
Theorem framesToSkip_quotient (df fr : Z) :
  0 < fr -> 0 < df ->
  framesToSkip df fr = num_of_Z (Z.max 0 (df / fr - 1)).
Proof.
  intros Hfr Hdf. unfold framesToSkip, num_of_Z.
  destruct fr as [|p|p]; try lia.
  unfold num_div, num_sub, num_neg, num_add, num_trunc, inject_Z.
  change (Qeq_bool (Z.pos p # 1) 0) with (Z.pos p * 1 =? 0 * 1).
  replace (Z.pos p * 1 =? 0 * 1) with false
    by (symmetry; apply Z.eqb_neq; lia).
  do 2 f_equal. cbn [Qdiv Qinv Qmult Qplus Qopp Qnum Qden].
  rewrite !Z.mul_1_r, Pos.mul_1_l, Pos.mul_1_r.
  match goal with
  | |- Z.quot ?a _ = _ => replace a with (df - Z.pos p) by lia
  end.
  destruct (Z.lt_ge_cases df (Z.pos p)) as [Hlt|Hge].
  - rewrite Z.div_small by lia.
    replace (df - Z.pos p) with (- (Z.pos p - df)) by lia.
    rewrite Z.quot_opp_l by lia.
    rewrite Z.quot_small by lia. reflexivity.
  - rewrite Z.quot_div_nonneg by lia.
    replace (df - Z.pos p) with (df + -1 * Z.pos p) by lia.
    rewrite Z.div_add by lia.
    assert (1 <= df / Z.pos p) by (apply Z.div_le_lower_bound; lia).
    lia.
Qed.

Lemma framesToSkip_quotient_witness :
  framesToSkip 60 25 = num_of_Z (Z.max 0 (60 / 25 - 1)).
Proof. apply (framesToSkip_quotient 60 25); lia. Defined.

(** ** What [processFrame] sends *)

Ltac case_frame :=
  repeat (match goal with
          | |- context [if ?c then _ else _] => destruct c eqn:?
          | |- context [match ?c with Some _ => _ | None => _ end] =>
              destruct c eqn:?
          | |- context [let '(_, _) := ?c in _] => destruct c eqn:?
          end; cbn).

(** A frame goes to the NDI sink exactly when NDI is on, the counter
    exceeds the threshold and there is a sender. *)
Lemma processFrame_sent image t0 t1 b :
  sent (Browser.processFrame image t0 t1 b)
  = cfg_N (Browser.cfg b)
    && num_lt (Browser.ndiFramesToSkip b) (num_of_nat (Browser.frames b))
    && match Browser.ndiSender b with Some _ => true | None => false end.
Proof.
  unfold sent, Browser.processFrame.
  destruct (cfg_N (Browser.cfg b)), (cfg_P (Browser.cfg b)); cbn;
    try reflexivity; case_frame; reflexivity.
Qed.

(** [processFrame] writes the frame counter and the tracker only. *)
Lemma processFrame_keeps image t0 t1 b :
  let b' := state (Browser.processFrame image t0 t1 b) in
  Browser.id b' = Browser.id b /\
  Browser.cfg b' = Browser.cfg b /\
  Browser.win b' = Browser.win b /\
  Browser.subscribed b' = Browser.subscribed b /\
  Browser.ndiSender b' = Browser.ndiSender b /\
  Browser.ndiFramesToSkip b' = Browser.ndiFramesToSkip b /\
  Browser.factor b' = Browser.factor b /\
  Browser.framerate b' = Browser.framerate b.
Proof.
  unfold Browser.processFrame. cbv zeta.
  destruct (cfg_N (Browser.cfg b)), (cfg_P (Browser.cfg b)); cbn;
    case_frame; repeat split; congruence.
Qed.

Lemma verdicts_never (fs : list (Image * Z * Z)) : forall b,
  (forall n, num_lt (Browser.ndiFramesToSkip b) (num_of_nat n) = false) ->
  Forall (fun v => v = false) (verdicts fs b).
Proof.
  induction fs as [|[[image t0] t1] fs IH]; intros b Hnever; [constructor|].
  cbn [verdicts]. constructor.
  - rewrite processFrame_sent, Hnever, andb_false_r. reflexivity.
  - apply IH. intros n.
    destruct (processFrame_keeps image t0 t1 b) as (_ & _ & _ & _ & _ & Hk & _).
    cbv zeta in Hk. rewrite Hk. apply Hnever.
Qed.

(** X7.  A browser with a visible window and NDI output at the frame
    rate 0 starts, with a threshold that no counter exceeds (plus
    infinity on a display of positive frequency): no frame callback
    ever hands a frame to the NDI sink. *)
Theorem zero_rate_never_forwards (i : string) (c : Cfg) (e : StartEnv)
    (s : Sender) (fs : list (Image * Z * Z)) :
  cfg_D c = true -> cfg_N c = true -> cfg_f c = 0 ->
  newSender e = Some s ->
  0 <= displayFrequency e ->
  let o := Browser.start e (Browser.constructor i c) in
  result o = Ok /\
  Browser.running (state o) = true /\
  (0 < displayFrequency e -> Browser.ndiFramesToSkip (state o) = PosInf) /\
  Forall (fun v => v = false) (verdicts fs (state o)).
Proof.
  intros HD HN Hf Hs Hdf.
  assert (Browser.ndiFramesToSkip
            (state (Browser.start e (Browser.constructor i c)))
          = framesToSkip (displayFrequency e) 0) as Hthr.
  { unfold Browser.start. cbn [Browser.cfg Browser.constructor].
    rewrite HD, HN, Hs, Hf. reflexivity. }
  assert (framesToSkip (displayFrequency e) 0
          = if displayFrequency e =? 0 then NaN else PosInf) as Hval.
  { unfold framesToSkip, num_of_Z, num_div.
    change (Qeq_bool (inject_Z 0) 0) with true. cbv iota.
    unfold Qeq_bool, Qlt_bool, Qle_bool, inject_Z. cbn [Qnum Qden].
    rewrite !Z.mul_1_r.
    destruct (Z.eqb_spec (displayFrequency e) 0) as [E|E]; [reflexivity|].
    replace (displayFrequency e <=? 0) with false
      by (symmetry; apply Z.leb_gt; lia).
    reflexivity. }
  cbv zeta. repeat split.
  - unfold Browser.start. cbn [Browser.cfg Browser.constructor].
    rewrite HD, HN, Hs. reflexivity.
  - unfold Browser.start. cbn [Browser.cfg Browser.constructor].
    rewrite HD, HN, Hs. reflexivity.
  - intros Hpos. rewrite Hthr, Hval.
    replace (displayFrequency e =? 0) with false
      by (symmetry; apply Z.eqb_neq; lia).
    reflexivity.
  - apply verdicts_never. intros n. rewrite Hthr, Hval.
    destruct (displayFrequency e =? 0); reflexivity.
Qed.

Lemma zero_rate_never_forwards_witness :
  let o := Browser.start display60 (Browser.constructor "z" cfg_rate_0) in
  result o = Ok /\
  Browser.running (state o) = true /\
  (0 < displayFrequency display60 ->
   Browser.ndiFramesToSkip (state o) = PosInf) /\
  Forall (fun v => v = false) (verdicts (arrivals 5) (state o)).
Proof.
  apply (zero_rate_never_forwards "z" cfg_rate_0 display60 7%nat (arrivals 5));
    try reflexivity.
  discriminate.
Defined.

(** X8.  One call of [processFrame] hands at most one frame to the NDI
    sink, and none unless NDI is on.  A frame that is handed over goes
    to the sender obtained at [start], has the size, the bitmap and
    the capture time of the image, four bytes per pixel in a row, and
    declares the browser's frame rate over 1000. *)
Theorem processFrame_video image t0 t1 b :
  let tr := trace (Browser.processFrame image t0 t1 b) in
  (length (List.filter is_video tr) <= 1)%nat /\
  (cfg_N (Browser.cfg b) = false -> List.filter is_video tr = []) /\
  (forall s fr, In (NdiVideo s fr) tr ->
     cfg_N (Browser.cfg b) = true /\
     Browser.ndiSender b = Some s /\
     xres fr = width image /\ yres fr = height image /\
     lineStrideBytes fr = xres fr * 4 /\
     frameRateN fr = Browser.framerate b * 1000 /\ frameRateD fr = 1000 /\
     timestamp fr = t0 /\ data fr = bitmap image).
Proof.
  unfold Browser.processFrame. cbv zeta.
  destruct (cfg_N (Browser.cfg b)), (cfg_P (Browser.cfg b)); cbn;
    case_frame;
    (split; [cbn; lia|split; [intros; try discriminate; reflexivity|]]);
    intros ? ? Hin; cbn in Hin;
    repeat (destruct Hin as [Hin|Hin]; try discriminate Hin);
    try contradiction;
    injection Hin as <- <-; repeat split; congruence.
Qed.

(** X9.  One call of [processFrame] sends exactly one preview capture
    to the console when the preview is on and none when it is off,
    whatever the rate governor decides for NDI. *)
Theorem processFrame_capture image t0 t1 b :
  length (List.filter is_capture (trace (Browser.processFrame image t0 t1 b)))
  = if cfg_P (Browser.cfg b) then 1%nat else 0%nat.
Proof.
  unfold Browser.processFrame.
  destruct (cfg_N (Browser.cfg b)), (cfg_P (Browser.cfg b)); cbn;
    case_frame; reflexivity.
Qed.

(** X10.  With NDI and preview both off, frame callbacks do nothing:
    any number of them leaves the browser as it is and emits no
    event. *)
Theorem deliver_both_off (fs : list (Image * Z * Z)) (b : Browser.t) :
  cfg_N (Browser.cfg b) = false ->
  cfg_P (Browser.cfg b) = false ->
  Browser.deliver fs b = (b, []).
Proof.
  intros HN HP. induction fs as [|[[image t0] t1] fs IH]; [reflexivity|].
  cbn [Browser.deliver]. unfold Browser.processFrame.
  rewrite HN, HP. cbn. rewrite IH. reflexivity.
Qed.

Lemma deliver_both_off_witness :
  Browser.deliver (arrivals 3) (Browser.constructor "q" cfg_quiet)
  = (Browser.constructor "q" cfg_quiet, []).
Proof.
  apply (deliver_both_off (arrivals 3) (Browser.constructor "q" cfg_quiet));
    reflexivity.
Defined.

(** ** Reconfiguring *)




Lemma update_twice (b : Browser.t) :
  Browser.update (fst (Browser.update b)) = (fst (Browser.update b), []).
Proof.
  unfold Browser.update.
  destruct (Browser.win b) as [w|] eqn:Hw; cbn; rewrite ?Hw; [|reflexivity].
  destruct (cfg_D (Browser.cfg b)) eqn:HD; cbn; rewrite ?Hw, ?HD;
    [|reflexivity].
  destruct (Browser.subscribed b) eqn:Hs, (cfg_P (Browser.cfg b)) eqn:HP;
    cbn; rewrite ?Hw, ?HD, ?Hs, ?HP; reflexivity.
Qed.

(** X11.  [update] does nothing for a browser that is not running or
    has no visible window.  For a running browser with a visible
    window it leaves the frame subscription on exactly when the
    preview is on, whether or not NDI is on, calling Electron only
    when the subscription changes; a second [update] does nothing. *)
Theorem update_subscription (b : Browser.t) :
  (Browser.running b = false \/ cfg_D (Browser.cfg b) = false ->
   Browser.update b = (b, [])) /\
  (forall w, Browser.win b = Some w -> cfg_D (Browser.cfg b) = true ->
     Browser.subscribed (fst (Browser.update b)) = cfg_P (Browser.cfg b) /\
     snd (Browser.update b)
     = if Bool.eqb (Browser.subscribed b) (cfg_P (Browser.cfg b)) then []
       else if cfg_P (Browser.cfg b) then [BeginFrameSubscription w]
            else [EndFrameSubscription w]) /\
  Browser.update (fst (Browser.update b)) = (fst (Browser.update b), []).
Proof.
  repeat split.
  - unfold Browser.running, Browser.update.
    intros [Hr|HD]; destruct (Browser.win b); try discriminate;
      try reflexivity.
    rewrite HD. reflexivity.
  - unfold Browser.update. rewrite H, H0.
    destruct (Browser.subscribed b) eqn:Hs, (cfg_P (Browser.cfg b)) eqn:HP;
      cbn; congruence.
  - unfold Browser.update. rewrite H, H0.
    destruct (Browser.subscribed b) eqn:Hs, (cfg_P (Browser.cfg b)) eqn:HP;
      reflexivity.
  - apply update_twice.
Qed.


(** ** Closing *)

(** X13.  When the surface reacts to [win.close()] and the [close]
    handler has destroyed the window during the grace period, the
    timer of [stop ()] finds nothing to do: [stop ()] is fulfilled
    without destroying anything, and the window was destroyed once, by
    the handler. *)
Theorem stop_after_close_handler (d : Win -> bool) (b : Browser.t) (w : Win) :
  Browser.win b = Some w ->
  Browser.on_close b = mkOut (Browser.set_win None b) [WinDestroy w] Ok /\
  Browser.stop {| meanwhile := fun x => state (Browser.on_close x);
                  isDestroyed := d |} b
  = mkOut (Browser.set_win None b) [WinClose w; SetTimeout 1000] Ok.
Proof.
  intros Hw.
  unfold Browser.stop, Browser.stop_request, Browser.on_close,
    Browser.destroy, Browser.stop_timeout.
  rewrite Hw. cbn. rewrite Hw. cbn. split; reflexivity.
Qed.

Lemma stop_after_close_handler_witness :
  Browser.on_close running_a
  = mkOut (Browser.set_win None running_a) [WinDestroy 1%nat] Ok /\
  Browser.stop {| meanwhile := fun x => state (Browser.on_close x);
                  isDestroyed := fun _ => true |} running_a
  = mkOut (Browser.set_win None running_a)
          [WinClose 1%nat; SetTimeout 1000] Ok.
Proof.
  apply (stop_after_close_handler (fun _ => true) running_a 1%nat).
  reflexivity.
Defined.

(** X14.  After [destroy ()] or [stop ()], whatever their outcome, the
    browser is not running, and then [reload ()], [destroy ()] and
    [stop ()] all throw "still not started" and change nothing. *)
Theorem not_running_after_closing (e e' : StopEnv Browser.t) (b : Browser.t) :
  needs_start e' (state (Browser.destroy b)) /\
  needs_start e' (state (Browser.stop e b)).
Proof.
  assert (forall b', Browser.win b' = None -> needs_start e' b') as Hdead.
  { intros b' Hw.
    unfold needs_start, Browser.running, Browser.reload, Browser.destroy,
      Browser.stop, Browser.stop_request.
    rewrite Hw. repeat split. }
  split; apply Hdead.
  - unfold Browser.destroy. destruct (Browser.win b) eqn:E; cbn; auto.
  - unfold Browser.stop, Browser.stop_request.
    destruct (Browser.win b) eqn:E; cbn; [|exact E].
    destruct (stop_timeout_spec (isDestroyed e) (meanwhile e b)) as (H & _).
    destruct (Browser.stop_timeout _ _). exact H.
Qed.

(** ** Starting *)

(** X15.  When [start ()] is fulfilled, the browser is running on the
    new window, with the sender it was given (none without NDI), and
    the URL is loaded last.  When NDI output is configured and
    [grandiose.send] rejects, [start ()] is rejected with that error:
    the window handle, the sender and the tracker are as before, no
    URL is loaded, and the window created on the way is referenced
    nowhere. *)
Theorem start_outcome (e : StartEnv) (b : Browser.t) :
  let o := Browser.start e b in
  (result o = Ok ->
   Browser.win (state o) = Some (newWin e) /\
   Browser.ndiSender (state o)
   = (if cfg_N (Browser.cfg b) then newSender e else None) /\
   (cfg_N (Browser.cfg b) = true -> is_Some (newSender e)) /\
   exists tr, trace o = tr ++ [LoadURL (newWin e) (cfg_u (Browser.cfg b))]) /\
  (cfg_N (Browser.cfg b) = true -> newSender e = None ->
   result o = Fail NdiError /\
   Browser.win (state o) = Browser.win b /\
   Browser.ndiSender (state o) = Browser.ndiSender b /\
   Browser.burst (state o) = Browser.burst b /\
   List.filter is_load (trace o) = []).
Proof.
  unfold Browser.start. cbv zeta. split.
  - destruct (cfg_N (Browser.cfg b)) eqn:HN, (newSender e) as [s|] eqn:Hs,
      (cfg_D (Browser.cfg b)) eqn:HD, (cfg_P (Browser.cfg b)) eqn:HP;
      cbn; intros Hok; try discriminate Hok;
      (split; [reflexivity|split; [reflexivity|split;
        [intros; try discriminate; eauto|]]]);
      match goal with
      | |- exists tr, ?l = tr ++ [?x] => exists (removelast l); reflexivity
      end.
  - intros HN Hs. rewrite HN, Hs. repeat split.
Qed.

(** ** The registry *)

Lemma control_other_own (e : Env) (a : Action) (i j : string)
    (browsers : gmap string Browser.t) :
  j <> i ->
  state (control e a i browsers) !! j = browsers !! j.
Proof.
  intros Hne. unfold control, store, browsers_delete.
  destruct a; destruct (browsers_get browsers i) as [b| |]; cbn [state];
    repeat (match goal with
            | |- context [if ?c then _ else _] => destruct c
            | |- context [let '(_, _) := ?c in _] => destruct c
            end; cbn [state]);
    rewrite ?lookup_insert_ne, ?lookup_delete_ne by congruence;
    reflexivity.
Qed.

(** X16.  Every single-browser action on the id [i] leaves the entry
    of every other id as it is; and unless [i] is ["__proto__"], whose
    [add] replaces the prototype of the registry object, it leaves
    what [browsers[j]] yields as it is for every other id [j]. *)
Theorem control_other_ids (e : Env) (a : Action) (i j : string)
    (browsers : gmap string Browser.t) :
  j <> i ->
  state (control e a i browsers) !! j = browsers !! j /\
  (i <> "__proto__"%string ->
   browsers_get (state (control e a i browsers)) j = browsers_get browsers j).
Proof.
  intros Hne. split; [apply control_other_own; exact Hne|].
  intros Hproto. unfold browsers_get.
  rewrite (control_other_own e a i j browsers Hne).
  rewrite (control_other_own e a i "__proto__" browsers)
    by (intros E; apply Hproto; symmetry; exact E).
  reflexivity.
Qed.

Lemma control_other_ids_witness :
  state (control env0 Stop "a" registry0) !! "b" = registry0 !! "b" /\
  ("a"%string <> "__proto__"%string ->
   browsers_get (state (control env0 Stop "a" registry0)) "b"
   = browsers_get registry0 "b").
Proof. apply (control_other_ids env0 Stop "a" "b" registry0). discriminate. Defined.

(** X17.  [add] always succeeds silently and registers a browser that
    is not running, also over an id already in use, whose window is
    then neither closed nor destroyed.  Right after [add], [reload]
    and [stop] are rejected with "browser still not running"; and for
    an id other than ["__proto__"], [del] takes the entry out again:
    if the id was free, the registry is back to what it was. *)
Theorem add_then (e : Env) (c : Cfg) (i : string)
    (browsers : gmap string Browser.t) :
  i <> "__proto__"%string ->
  let o := control e (Add c) i browsers in
  result o = Ok /\ trace o = [] /\
  state o !! i = Some (Browser.constructor i c) /\
  control e Reload i (state o)
  = mkOut (state o) [] (Fail (Error "browser still not running")) /\
  control e Stop i (state o)
  = mkOut (state o) [] (Fail (Error "browser still not running")) /\
  result (control e Del i (state o)) = Ok /\
  state (control e Del i (state o)) !! i = None /\
  (browsers !! i = None -> state (control e Del i (state o)) = browsers).
Proof.
  intros Hne. cbv zeta. cbn [control state result trace].
  rewrite !(browsers_get_own _ i (Browser.constructor i c))
    by apply lookup_insert_eq.
  rewrite (browsers_delete_plain _ i Hne). cbn.
  repeat split.
  - apply lookup_insert_eq.
  - apply lookup_delete_eq.
  - intros Hb. rewrite delete_insert_eq. apply delete_id. exact Hb.
Qed.

Lemma add_then_witness :
  let o := control env0 (Add cfg_quiet) "q" registry0 in
  result o = Ok /\ trace o = [] /\
  state o !! "q" = Some (Browser.constructor "q" cfg_quiet) /\
  control env0 Reload "q" (state o)
  = mkOut (state o) [] (Fail (Error "browser still not running")) /\
  control env0 Stop "q" (state o)
  = mkOut (state o) [] (Fail (Error "browser still not running")) /\
  result (control env0 Del "q" (state o)) = Ok /\
  state (control env0 Del "q" (state o)) !! "q" = None /\
  (registry0 !! "q" = None ->
   state (control env0 Del "q" (state o)) = registry0).
Proof. apply (add_then env0 cfg_quiet "q" registry0). discriminate. Defined.

(** An [add] with the id ["__proto__"] makes the new browser the
    prototype of the registry object: ids naming its fields and
    methods are then found, and a [del] with that id leaves it in
    place. *)
Example add_prototype :
  let r := state (control env0 (Add cfg_quiet) "__proto__" registry0) in
  browsers_get registry0 "win" = Undefined /\
  browsers_get r "win" = Inherited /\
  state (control env0 Del "__proto__" r) = r.
Proof. vm_compute. repeat split. Qed.

Lemma start_ok_win (e : StartEnv) (b : Browser.t) :
  result (Browser.start e b) = Ok ->
  Browser.win (state (Browser.start e b)) = Some (newWin e).
Proof.
  unfold Browser.start.
  destruct (cfg_N (Browser.cfg b)), (newSender e),
    (cfg_D (Browser.cfg b)), (cfg_P (Browser.cfg b)); cbn;
    intros H; try discriminate H; reflexivity.
Qed.

Lemma stop_win_none (e : StopEnv Browser.t) (b : Browser.t) :
  Browser.win b <> None ->
  result (Browser.stop e b) = Ok /\ Browser.win (state (Browser.stop e b)) = None.
Proof.
  intros Hw. unfold Browser.stop, Browser.stop_request.
  destruct (Browser.win b) as [w|]; [|congruence]. cbn.
  destruct (stop_timeout_spec (isDestroyed e) (meanwhile e b)) as (H & _).
  destruct (Browser.stop_timeout _ _). cbn in *. split; [reflexivity|exact H].
Qed.

Lemma control_start_accepted (e : Env) (i : string)
    (browsers : gmap string Browser.t) (b : Browser.t) :
  browsers !! i = Some b ->
  Browser.running b = false ->
  state (control e Start i browsers)
  = <[i := state (Browser.start (onStart e) b)]> browsers /\
  result (control e Start i browsers) = result (Browser.start (onStart e) b) /\
  exists tr, trace (control e Start i browsers)
             = ConsoleSend "browser-start" i :: tr.
Proof.
  intros Hb Hr. unfold control, store. rewrite (browsers_get_own _ _ _ Hb), Hr. cbn.
  repeat split. eexists. reflexivity.
Qed.

Lemma control_stop_accepted (e : Env) (i : string)
    (browsers : gmap string Browser.t) (b : Browser.t) :
  browsers !! i = Some b ->
  Browser.running b = true ->
  state (control e Stop i browsers)
  = <[i := state (Browser.stop (onStop e) b)]> browsers /\
  result (control e Stop i browsers) = result (Browser.stop (onStop e) b).
Proof.
  intros Hb Hr. unfold control, store. rewrite (browsers_get_own _ _ _ Hb), Hr. cbn.
  split; reflexivity.
Qed.

(** X18.  The life cycle through the dispatcher.  Once [start] has
    succeeded for a registered browser, a second [start] is rejected
    with "browser already running" and changes nothing, and [stop] is
    fulfilled; after that [stop] and [reload] are rejected with
    "browser still not running" and change nothing, and [start] is
    accepted again: it announces "browser-start" to the console. *)
Theorem lifecycle_cycle (e1 e2 e3 : Env) (i : string)
    (browsers : gmap string Browser.t) (b : Browser.t) :
  browsers !! i = Some b ->
  Browser.running b = false ->
  result (control e1 Start i browsers) = Ok ->
  let r1 := state (control e1 Start i browsers) in
  let r2 := state (control e2 Stop i r1) in
  control e2 Start i r1
  = mkOut r1 [] (Fail (Error "browser already running")) /\
  result (control e2 Stop i r1) = Ok /\
  control e3 Stop i r2
  = mkOut r2 [] (Fail (Error "browser still not running")) /\
  control e3 Reload i r2
  = mkOut r2 [] (Fail (Error "browser still not running")) /\
  exists tr, trace (control e3 Start i r2) = ConsoleSend "browser-start" i :: tr.
Proof.
  intros Hb Hr Hok. cbv zeta.
  destruct (control_start_accepted e1 i browsers b Hb Hr) as (Hs1 & Hres1 & _).
  rewrite Hres1 in Hok. rewrite Hs1.
  set (b1 := state (Browser.start (onStart e1) b)).
  set (r1 := <[i := b1]> browsers).
  pose proof (start_ok_win _ _ Hok) as Hw1. fold b1 in Hw1.
  assert (r1 !! i = Some b1) as Hr1 by apply lookup_insert_eq.
  assert (Browser.running b1 = true) as Hrun1
      by (unfold Browser.running; rewrite Hw1; reflexivity).
  destruct (control_stop_accepted e2 i r1 b1 Hr1 Hrun1) as (Hs2 & Hres2).
  rewrite Hs2.
  set (b2 := state (Browser.stop (onStop e2) b1)).
  set (r2 := <[i := b2]> r1).
  destruct (stop_win_none (onStop e2) b1) as (Hsok & Hsw);
    [rewrite Hw1; discriminate|]. fold b2 in Hsw.
  assert (r2 !! i = Some b2) as Hr2 by apply lookup_insert_eq.
  assert (Browser.running b2 = false) as Hrun2
      by (unfold Browser.running; rewrite Hsw; reflexivity).
  destruct (control_start_accepted e3 i r2 b2 Hr2 Hrun2) as (_ & _ & tr & Htr).
  repeat split.
  - unfold control. rewrite (browsers_get_own _ _ _ Hr1), Hrun1. reflexivity.
  - rewrite Hres2. exact Hsok.
  - unfold control. rewrite (browsers_get_own _ _ _ Hr2), Hrun2. reflexivity.
  - unfold control. rewrite (browsers_get_own _ _ _ Hr2), Hrun2. reflexivity.
  - exists tr. exact Htr.
Qed.

Lemma lifecycle_cycle_witness :
  let r1 := state (control env0 Start "b" registry0) in
  let r2 := state (control env0 Stop "b" r1) in
  control env0 Start "b" r1
  = mkOut r1 [] (Fail (Error "browser already running")) /\
  result (control env0 Stop "b" r1) = Ok /\
  control env0 Stop "b" r2
  = mkOut r2 [] (Fail (Error "browser still not running")) /\
  control env0 Reload "b" r2
  = mkOut r2 [] (Fail (Error "browser still not running")) /\
  exists tr, trace (control env0 Start "b" r2)
             = ConsoleSend "browser-start" "b" :: tr.
Proof.
  apply (lifecycle_cycle env0 env0 env0 "b" registry0 stopped_b);
    reflexivity.
Defined.

(** X19.  When NDI output is configured and [grandiose.send] rejects,
    the [start] action is rejected with that error: the console hears
    "browser-start" but no "browser-started", no URL is loaded, and
    the browser stays registered, not running, with its configuration;
    a later [start] with a working sender succeeds. *)
Theorem start_failure (e e' : Env) (i : string)
    (browsers : gmap string Browser.t) (b : Browser.t) (s : Sender) :
  browsers !! i = Some b ->
  Browser.running b = false ->
  cfg_N (Browser.cfg b) = true ->
  newSender (onStart e) = None ->
  newSender (onStart e') = Some s ->
  let o := control e Start i browsers in
  result o = Fail NdiError /\
  trace o = [ConsoleSend "browser-start" i;
             NewBrowserWindow (newWin (onStart e)) (negb (cfg_D (Browser.cfg b)));
             SetAlwaysOnTop (newWin (onStart e)) (cfg_p (Browser.cfg b));
             NdiSend (default "Vingester"%string (cfg_t (Browser.cfg b)))] /\
  (exists b', state o !! i = Some b' /\
              Browser.running b' = false /\ Browser.cfg b' = Browser.cfg b) /\
  result (control e' Start i (state o)) = Ok.
Proof.
  intros Hb Hr HN Hs Hs'. cbv zeta.
  assert (Browser.start (onStart e) b
          = mkOut (Browser.set_framerate (cfg_f (Browser.cfg b))
                     (Browser.set_factor (scaleFactor (onStart e)) b))
                  ([NewBrowserWindow (newWin (onStart e))
                      (negb (cfg_D (Browser.cfg b)));
                    SetAlwaysOnTop (newWin (onStart e)) (cfg_p (Browser.cfg b))]
                     ++ [NdiSend (default "Vingester"%string
                                    (cfg_t (Browser.cfg b)))])
                  (Fail NdiError)) as Hstart.
  { unfold Browser.start. rewrite HN, Hs. reflexivity. }
  assert (control e Start i browsers
          = mkOut (<[i := state (Browser.start (onStart e) b)]> browsers)
                  (ConsoleSend "browser-start" i
                     :: trace (Browser.start (onStart e) b))
                  (Fail NdiError)) as Hctl.
  { unfold control, store. rewrite (browsers_get_own _ _ _ Hb), Hr, Hstart. reflexivity. }
  rewrite Hctl, Hstart. cbn [result state trace app].
  set (b1 := Browser.set_framerate _ _).
  assert (Browser.running b1 = false) as Hr1 by exact Hr.
  assert (<[i := b1]> browsers !! i = Some b1) as Hl1 by apply lookup_insert_eq.
  split; [reflexivity|]. split; [reflexivity|]. split.
  - exists b1. repeat split; assumption.
  - destruct (control_start_accepted e' i _ b1 Hl1 Hr1) as (_ & -> & _).
    unfold Browser.start.
    change (Browser.cfg b1) with (Browser.cfg b). rewrite HN, Hs'.
    destruct (cfg_D (Browser.cfg b)), (cfg_P (Browser.cfg b)); reflexivity.
Qed.

Lemma start_failure_witness :
  let o := control env_no_ndi Start "n" registry_ndi in
  result o = Fail NdiError /\
  trace o = [ConsoleSend "browser-start" "n";
             NewBrowserWindow 2%nat (negb (cfg_D cfg_polled));
             SetAlwaysOnTop 2%nat (cfg_p cfg_polled);
             NdiSend (default "Vingester"%string (cfg_t cfg_polled))] /\
  (exists b', state o !! "n" = Some b' /\
              Browser.running b' = false /\ Browser.cfg b' = cfg_polled) /\
  result (control env0 Start "n" (state o)) = Ok.
Proof.
  apply (start_failure env_no_ndi env0 "n" registry_ndi
           (Browser.constructor "n" cfg_polled) 7%nat); reflexivity.
Defined.

(** X20.  [reload] of a running browser asks its window to reload
    between "browser-reload" and "browser-reloaded" and leaves the
    registry as it is. *)
Theorem reload_running (e : Env) (i : string)
    (browsers : gmap string Browser.t) (b : Browser.t) (w : Win) :
  browsers !! i = Some b ->
  Browser.win b = Some w ->
  control e Reload i browsers = mkOut browsers (reload_events i w) Ok.
Proof.
  intros Hb Hw. unfold control, Browser.running, Browser.reload, store.
  rewrite (browsers_get_own _ _ _ Hb), Hw. cbn. rewrite (insert_id browsers i b Hb). reflexivity.
Qed.

Lemma reload_running_witness :
  control env0 Reload "a" registry0
  = mkOut registry0 (reload_events "a" 1%nat) Ok.
Proof.
  apply (reload_running env0 "a" registry0 running_a 1%nat); reflexivity.
Defined.

Lemma reload_running_step (e : Env) (i : string)
    (browsers : gmap string Browser.t) (b : Browser.t) (w : Win) :
  browsers !! i = Some b ->
  Browser.win b = Some w ->
  control e Reload i browsers = mkOut browsers (reload_events i w) Ok.
Proof.
  intros Hb Hw. unfold control, Browser.running, Browser.reload, store.
  rewrite (browsers_get_own _ _ _ Hb), Hw. cbn. rewrite (insert_id browsers i b Hb). reflexivity.
Qed.

(** X21.  [reload-all] over the keys of the registry is fulfilled and
    leaves the registry as it is; key by key, in order, a running
    browser is reloaded between its two console events and a browser
    that is not running causes no event at all; no promise is
    rejected. *)
Theorem reload_all_running_only (e : Env) (keys : list string)
    (browsers : gmap string Browser.t) :
  Forall (fun i => is_Some (browsers !! i)) keys ->
  reload_all e keys browsers
  = mkOut browsers (List.flat_map (reload_all_events browsers) keys) Ok.
Proof.
  induction keys as [|i keys IH]; intros Hall; [reflexivity|].
  inversion Hall as [|i' keys' [b Hb] Hall']; subst.
  cbn [reload_all List.flat_map]. unfold reload_all_events at 1.
  rewrite Hb. unfold Browser.running.
  destruct (Browser.win b) as [w|] eqn:Hw.
  - rewrite (reload_running_step e i browsers b w Hb Hw).
    cbn [state trace result]. rewrite (IH Hall'). reflexivity.
  - rewrite (IH Hall'). reflexivity.
Qed.

Lemma reload_all_running_only_witness :
  reload_all env0 ["a"; "b"]%string registry0
  = mkOut registry0
          (List.flat_map (reload_all_events registry0) ["a"; "b"]%string) Ok.
Proof.
  apply (reload_all_running_only env0 ["a"; "b"]%string registry0).
  repeat constructor; eexists; reflexivity.
Defined.

(** ** The preview bytes *)

Lemma map_seq_offset (f : nat -> nat) (n : nat) : forall a,
  map (fun x => f (a + x)%nat) (seq 0 n) = map f (seq a n).
Proof.
  induction n as [|n IH]; intros a; [reflexivity|].
  cbn [seq map]. rewrite Nat.add_0_r. f_equal.
  rewrite <- (IH (S a)). rewrite <- List.seq_shift, List.map_map.
  apply List.map_ext. intros x. f_equal. lia.
Qed.

Lemma scan_indices_flat (w h : nat) :
  scan_indices w h = map (fun p => (4 * p)%nat) (seq 0 (w * h)).
Proof.
  unfold scan_indices. induction h as [|h IH].
  - rewrite Nat.mul_0_r. reflexivity.
  - rewrite List.seq_S, List.flat_map_app, IH. cbn [List.flat_map Nat.add].
    rewrite List.app_nil_r, Nat.mul_succ_r, List.seq_app, List.map_app.
    f_equal. cbn [Nat.add].
    exact (map_seq_offset (fun p => (4 * p)%nat) w (w * h)).
Qed.

Lemma swap_at_cons (n : nat) (x : Z) (l : list Z) :
  swap_at (S n) (x :: l) = x :: swap_at n l.
Proof. reflexivity. Qed.

Lemma swap_at_app (pre : list Z) (b g r a : Z) (rest : list Z) :
  swap_at (length pre) (pre ++ b :: g :: r :: a :: rest)
  = pre ++ r :: g :: b :: a :: rest.
Proof.
  induction pre as [|x pre IH]; [reflexivity|].
  cbn [length app]. rewrite swap_at_cons, IH. reflexivity.
Qed.

Lemma fold_swap (n : nat) : forall p0 pre post,
  length pre = (4 * p0)%nat ->
  length post = (4 * n)%nat ->
  fold_left (fun d idx => swap_at idx d)
            (map (fun p => (4 * p)%nat) (seq p0 n)) (pre ++ post)
  = pre ++ swap_rb post.
Proof.
  induction n as [|n IH]; intros p0 pre post Hpre Hpost.
  - destruct post; [reflexivity|cbn in Hpost; lia].
  - destruct post as [|b [|g [|r [|a post]]]]; cbn in Hpost; try lia.
    cbn [seq map fold_left swap_rb]. rewrite <- Hpre, swap_at_app.
    change (pre ++ r :: g :: b :: a :: post)
      with (pre ++ [r; g; b; a] ++ post).
    rewrite List.app_assoc.
    rewrite (IH (S p0) (pre ++ [r; g; b; a]) post).
    + rewrite <- List.app_assoc. reflexivity.
    + rewrite List.length_app. cbn [length]. lia.
    + lia.
Qed.

Lemma bgra_to_rgba_swap_rb (w h : nat) (d : list Z) :
  length d = (4 * (w * h))%nat ->
  bgra_to_rgba w h d = swap_rb d.
Proof.
  intros Hd. unfold bgra_to_rgba. rewrite scan_indices_flat.
  exact (fold_swap (w * h) 0 [] d eq_refl Hd).
Qed.

Lemma swap_rb_length (n : nat) : forall d,
  (length d <= n)%nat -> length (swap_rb d) = length d.
Proof.
  induction n as [|n IH]; intros d Hd.
  - destruct d; [reflexivity|cbn in Hd; lia].
  - destruct d as [|b [|g [|r [|a rest]]]]; try reflexivity.
    cbn [swap_rb length] in *. rewrite IH by lia. reflexivity.
Qed.

Lemma swap_rb_twice (n : nat) : forall d,
  (length d <= n)%nat -> swap_rb (swap_rb d) = d.
Proof.
  induction n as [|n IH]; intros d Hd.
  - destruct d; [reflexivity|cbn in Hd; lia].
  - destruct d as [|b [|g [|r [|a rest]]]]; try reflexivity.
    cbn [swap_rb length] in *. rewrite IH by lia. reflexivity.
Qed.

Lemma swap_rb_pixel (p : nat) : forall d,
  (4 * p + 3 < length d)%nat ->
  swap_rb d !! (4 * p)%nat = d !! (4 * p + 2)%nat /\
  swap_rb d !! (4 * p + 1)%nat = d !! (4 * p + 1)%nat /\
  swap_rb d !! (4 * p + 2)%nat = d !! (4 * p)%nat /\
  swap_rb d !! (4 * p + 3)%nat = d !! (4 * p + 3)%nat.
Proof.
  induction p as [|p IH]; intros d Hd;
    destruct d as [|b [|g [|r [|a rest]]]]; cbn [length] in Hd; try lia.
  - repeat split.
  - replace (4 * S p)%nat with (S (S (S (S (4 * p))))) by lia.
    cbn [swap_rb]. apply (IH rest). lia.
Qed.

(** X23.  On a buffer of [w * h] pixels of four bytes, the conversion
    of the preview exchanges the first and the third byte of every
    pixel and leaves the second and the fourth; the buffer keeps its
    length, and converting twice gives the buffer back.  On a
    big-endian host the bytes are sent as they are. *)
Theorem preview_bytes_swap (w h : nat) (d : list Z) :
  length d = (4 * (w * h))%nat ->
  preview_bytes false w h d = d /\
  length (preview_bytes true w h d) = length d /\
  preview_bytes true w h (preview_bytes true w h d) = d /\
  (forall p, (p < w * h)%nat ->
     preview_bytes true w h d !! (4 * p)%nat = d !! (4 * p + 2)%nat /\
     preview_bytes true w h d !! (4 * p + 1)%nat = d !! (4 * p + 1)%nat /\
     preview_bytes true w h d !! (4 * p + 2)%nat = d !! (4 * p)%nat /\
     preview_bytes true w h d !! (4 * p + 3)%nat = d !! (4 * p + 3)%nat).
Proof.
  intros Hd. unfold preview_bytes.
  pose proof (swap_rb_length (length d) d (le_n _)) as Hlen.
  rewrite (bgra_to_rgba_swap_rb w h d Hd).
  rewrite (bgra_to_rgba_swap_rb w h (swap_rb d)) by (rewrite Hlen; exact Hd).
  repeat split; try assumption.
  - apply (swap_rb_twice (length d)). apply le_n.
  - apply swap_rb_pixel. lia.
  - apply swap_rb_pixel. lia.
  - apply swap_rb_pixel. lia.
  - apply swap_rb_pixel. lia.
Qed.

(** Two pixels in a row, blue first: [B1 G1 R1 A1 B2 G2 R2 A2]. *)
Lemma preview_bytes_swap_witness :
  preview_bytes false 2 1 [1; 2; 3; 4; 5; 6; 7; 8] = [1; 2; 3; 4; 5; 6; 7; 8] /\
  length (preview_bytes true 2 1 [1; 2; 3; 4; 5; 6; 7; 8])
  = length [1; 2; 3; 4; 5; 6; 7; 8] /\
  preview_bytes true 2 1 (preview_bytes true 2 1 [1; 2; 3; 4; 5; 6; 7; 8])
  = [1; 2; 3; 4; 5; 6; 7; 8] /\
  (forall p, (p < 2 * 1)%nat ->
     preview_bytes true 2 1 [1; 2; 3; 4; 5; 6; 7; 8] !! (4 * p)%nat
     = [1; 2; 3; 4; 5; 6; 7; 8] !! (4 * p + 2)%nat /\
     preview_bytes true 2 1 [1; 2; 3; 4; 5; 6; 7; 8] !! (4 * p + 1)%nat
     = [1; 2; 3; 4; 5; 6; 7; 8] !! (4 * p + 1)%nat /\
     preview_bytes true 2 1 [1; 2; 3; 4; 5; 6; 7; 8] !! (4 * p + 2)%nat
     = [1; 2; 3; 4; 5; 6; 7; 8] !! (4 * p)%nat /\
     preview_bytes true 2 1 [1; 2; 3; 4; 5; 6; 7; 8] !! (4 * p + 3)%nat
     = [1; 2; 3; 4; 5; 6; 7; 8] !! (4 * p + 3)%nat).
Proof.
  apply (preview_bytes_swap 2 1 [1; 2; 3; 4; 5; 6; 7; 8]). reflexivity.
Defined.

Example preview_two_pixels :
  preview_bytes true 2 1 [1; 2; 3; 4; 5; 6; 7; 8] = [3; 2; 1; 4; 7; 6; 5; 8].
Proof. reflexivity. Qed.
